(** * scripts/performance-boxplot.py

    A shallow embedding of the benchmark box-plot script: two JSON result
    files (master and current) are loaded, every category of the master
    file is tabulated with pandas, drawn with seaborn and saved as
    [<category>.png] in the [results] directory.

    The script is a straight-line program over process state (working
    directory, file system, the current matplotlib figure), so it is
    embedded in a state-and-exception monad over a [world] record.  The
    three library layers it calls ([os], [pandas], [seaborn]/matplotlib)
    are given as small modules that follow the documented behaviour of the
    calls the script makes. *)

From Stdlib Require Import QArith Ascii String.
From stdpp Require Import gmap strings list fin_maps.

Local Open Scope string_scope.
Local Open Scope list_scope.

(** ** Python values *)

(** Exceptions the script can end with. None is caught anywhere in the
    script, so a raised exception ends the run. *)
Inductive exn :=
| IndexError                 (* sys.argv[i] out of range *)
| KeyError (k : string)      (* dict subscript on an absent key *)
| ValueError                 (* pandas refuses its argument *)
| FileNotFoundError
| FileExistsError
| IsADirectoryError
| NotADirectoryError
| JSONDecodeError
| RenderError.               (* any exception raised inside seaborn/matplotlib *)

Inductive result (A : Type) :=
| Ok (a : A)
| Raise (e : exn).
Arguments Ok {A} a.
Arguments Raise {A} e.

Definition is_ok {A} (r : result A) : bool :=
  match r with Ok _ => true | Raise _ => false end.

(** A JSON array element: a number, or [None] for [null]/[NaN]. *)
Definition sample := option Q.

(** Python dicts keep insertion order: an association list.  Its keys are
    pairwise distinct when it comes out of [json.load]; properties that
    need this say so. *)
Definition dict (V : Type) := list (string * V).

Definition keys {V} (d : dict V) : list string := map fst d.

Fixpoint dict_find {V} (d : dict V) (k : string) : option V :=
  match d with
  | [] => None
  | (k', v) :: d' => if String.eqb k' k then Some v else dict_find d' k
  end.

(** [d[k]] *)
Definition getitem {V} (d : dict V) (k : string) : result V :=
  match dict_find d k with
  | Some v => Ok v
  | None => Raise (KeyError k)
  end.

(** test name -> samples *)
Definition category := dict (list sample).
(** category name -> tests: the shape of both input documents *)
Definition dataset := dict category.

(** ** pandas *)

Module pandas.

Inductive cell :=
| Str (s : string)
| Num (q : Q)
| NaN.

Definition cell_of_sample (s : sample) : cell :=
  match s with Some q => Num q | None => NaN end.

(** Column-major table: row labels and named columns. *)
Record frame := mkframe {
  index : list nat;
  data : list (string * list cell)
}.

Definition columns (f : frame) : list string := map fst (data f).
Definition nrows (f : frame) : nat := length (index f).

(** [pandas.DataFrame(d)] for a dict of lists: the lists become the
    columns, in dict order, under a fresh 0..n-1 index.  Lists of unequal
    length are refused ("All arrays must be of the same length"). *)
Definition DataFrame (d : dict (list sample)) : result frame :=
  match d with
  | [] => Ok (mkframe [] [])
  | (_, v) :: rest =>
      if forallb (fun kv => Nat.eqb (length (snd kv)) (length v)) rest
      then Ok (mkframe (seq 0 (length v))
                       (map (fun kv => (fst kv, map cell_of_sample (snd kv))) d))
      else Raise ValueError
  end.

(** [pandas.melt(f, var_name=.., value_name=..)] without id columns:
    the columns are stacked one under the other, each value next to the
    name of the column it came from; every cell is kept, missing or not.
    A frame that already has a column called [value_name] is refused
    (pandas 2 raises; pandas 1 only warned). *)
Definition melt (f : frame) (var_name value_name : string) : result frame :=
  if existsb (String.eqb value_name) (columns f) then Raise ValueError
  else
    let n := nrows f in
    Ok (mkframe (seq 0 (n * length (data f)))
          [ (var_name, flat_map (fun c => repeat (Str (fst c)) n) (data f));
            (value_name, flat_map snd (data f)) ]).

Fixpoint set_col (cols : list (string * list cell)) (name : string)
    (col : list cell) : list (string * list cell) :=
  match cols with
  | [] => [(name, col)]
  | (k, c) :: cols' =>
      if String.eqb k name then (k, col) :: cols'
      else (k, c) :: set_col cols' name col
  end.

(** [f[name] = v] with a scalar [v]: the column is filled with [v]. *)
Definition setitem (f : frame) (name : string) (v : cell) : frame :=
  mkframe (index f) (set_col (data f) name (repeat v (nrows f))).

Definition column (f : frame) (name : string) : option (list cell) :=
  dict_find (data f) name.

Fixpoint union_names (seen : list string) (names : list string) : list string :=
  match names with
  | [] => seen
  | n :: names' =>
      if existsb (String.eqb n) seen then union_names seen names'
      else union_names (seen ++ [n]) names'
  end.

(** [pandas.concat(frames, ignore_index=b)]: rows of the frames one after
    the other, over the union of their columns (cells of a column a frame
    lacks are missing); with [ignore_index] the row labels are replaced
    by 0..n-1, otherwise each frame keeps its own. *)
Definition concat (frames : list frame) (ignore_index : bool) : result frame :=
  match frames with
  | [] => Raise ValueError
  | _ =>
      let names := union_names [] (flat_map columns frames) in
      let col name :=
        flat_map (fun f => match column f name with
                           | Some c => c
                           | None => repeat NaN (nrows f)
                           end) frames in
      Ok (mkframe
            (if ignore_index then seq 0 (list_sum (map nrows frames))
             else flat_map index frames)
            (map (fun n => (n, col n)) names))
  end.

(** Reading a frame row by row. *)
Definition row (f : frame) (i : nat) : list (string * cell) :=
  map (fun c => (fst c, nth i (snd c) NaN)) (data f).

Definition rows (f : frame) : list (list (string * cell)) :=
  map (row f) (seq 0 (nrows f)).

End pandas.

(** ** The process state *)

(** Location of a file: an absolute path, as the list of its components
    below the root.  There are no symbolic links in this model. *)
Definition location := list string.

(** What the plotting layer holds: the tables drawn on the current figure
    since it was last cleared, and the figure's size in inches. *)
Record Figure := mkFigure {
  axes : list pandas.frame;
  size_inches : Q * Q
}.

Inductive content :=
| JsonText (d : dataset)     (* a text that [json.load] parses to [d] *)
| Png (f : Figure)           (* an image written by [savefig] *)
| Other.                     (* anything else *)

Inductive node :=
| Dir
| File (c : content).

Record world := mkworld {
  cwd : location;
  fs : gmap location node;
  figure : Figure;
  theme : option (string * string)
}.

(** matplotlib creates the current figure on first use, 6.4in x 4.8in. *)
Definition default_figure : Figure := mkFigure [] (32 # 5, 24 # 5)%Q.

(** A process started in directory [d] over the files [m]. *)
Definition start (d : location) (m : gmap location node) : world :=
  mkworld d m default_figure None.

(** ** State-and-exception monad *)

Definition M (A : Type) := world -> result A * world.

Definition ret {A} (a : A) : M A := fun w => (Ok a, w).
Definition raise {A} (e : exn) : M A := fun w => (Raise e, w).
Definition bind {A B} (m : M A) (k : A -> M B) : M B :=
  fun w => match m w with
           | (Ok a, w') => k a w'
           | (Raise e, w') => (Raise e, w')
           end.
Definition lift {A} (r : result A) : M A := fun w => (r, w).

Notation "x <- m ;; k" := (bind m (fun x => k))
  (at level 100, m at next level, right associativity).
Notation "m ;;; k" := (bind m (fun _ => k))
  (at level 100, right associativity).

Fixpoint for_each {A} (l : list A) (body : A -> M unit) : M unit :=
  match l with
  | [] => ret tt
  | a :: l' => body a ;;; for_each l' body
  end.

(** ** os, open, json *)

Module os.

(** Components of a path string, cut at every slash. *)
Fixpoint split (s : string) : list string :=
  match s with
  | EmptyString => [EmptyString]
  | String c s' =>
      if Ascii.eqb c "/"%char then EmptyString :: split s'
      else match split s' with
           | [] => [String c EmptyString]
           | h :: t => String c h :: t
           end
  end.

Definition parent (p : location) : location := removelast p.

(** One component further from [p]: empty components and [.] stay,
    [..] goes up (read off the string: there are no links to follow). *)
Definition step (p : location) (c : string) : location :=
  if String.eqb c EmptyString then p
  else if String.eqb c "." then p
  else if String.eqb c ".." then parent p
  else p ++ [c].

Definition is_absolute (name : string) : bool :=
  match name with
  | String c _ => Ascii.eqb c "/"%char
  | EmptyString => false
  end.

(** The location a path string names for a process whose working
    directory is [base]. *)
Definition resolve (base : location) (name : string) : location :=
  fold_left step (split name) (if is_absolute name then [] else base).

Definition getcwd : M location := fun w => (Ok (cwd w), w).

Module path.
(** [os.path.join(base, name)] for a [base] that came from [getcwd]. *)
Definition join (base : location) (name : string) : location :=
  resolve base name.

Definition exists_ (p : location) : M bool :=
  fun w => (Ok (bool_decide (is_Some (fs w !! p))), w).
End path.

(** [os.mkdir]: one level only, and the name must be free. *)
Definition mkdir (p : location) : M unit :=
  fun w =>
    match fs w !! p with
    | Some _ => (Raise FileExistsError, w)
    | None =>
        match fs w !! parent p with
        | Some Dir => (Ok tt, mkworld (cwd w) (<[p := Dir]> (fs w)) (figure w) (theme w))
        | Some (File _) => (Raise NotADirectoryError, w)
        | None => (Raise FileNotFoundError, w)
        end
    end.

Definition chdir (p : location) : M unit :=
  fun w =>
    match fs w !! p with
    | Some Dir => (Ok tt, mkworld p (fs w) (figure w) (theme w))
    | Some (File _) => (Raise NotADirectoryError, w)
    | None => (Raise FileNotFoundError, w)
    end.

End os.

(** [sys.argv[i]] *)
Definition sys_argv (argv : list string) (i : nat) : result string :=
  match argv !! i with
  | Some a => Ok a
  | None => Raise IndexError
  end.

(** [open(name, "r")]: the file's content, found from the working directory
    the process has at that moment. *)
Definition open (name : string) : M content :=
  fun w =>
    match fs w !! os.resolve (cwd w) name with
    | Some (File c) => (Ok c, w)
    | Some Dir => (Raise IsADirectoryError, w)
    | None => (Raise FileNotFoundError, w)
    end.

Module json.
Definition load (c : content) : result dataset :=
  match c with
  | JsonText d => Ok d
  | _ => Raise JSONDecodeError
  end.
End json.

Definition figure_width : Q := 31 # 2.   (* 15.5 *)
Definition item_height : Q := 3 # 5.     (* 0.6 *)

Definition len {A} (l : list A) : Q := inject_Z (Z.of_nat (length l)).

Section Script.

(** The plotting layer is outside this repository.  Whether it draws a
    given table, and whether it encodes a given figure, is left open. *)
Variable plots : pandas.frame -> bool.
Variable renders : Figure -> bool.

(** ** seaborn and the current figure *)

(** The script draws on matplotlib's current figure, the one
    [plot.get_figure()] hands back: the [figure] of the world.  Colours and
    the tight bounding box of the saved image are not part of the model; a
    saved image is the figure it was made from. *)

Definition set_theme (style palette : string) : M unit :=
  fun w => (Ok tt, mkworld (cwd w) (fs w) (figure w) (Some (style, palette))).

(** [seaborn.boxplot(x='Time', y='Test', hue='branch', data=t)] draws on
    the current figure. *)
Definition boxplot (t : pandas.frame) : M unit :=
  fun w =>
    if plots t
    then (Ok tt, mkworld (cwd w) (fs w)
                   (mkFigure (axes (figure w) ++ [t]) (size_inches (figure w)))
                   (theme w))
    else (Raise RenderError, w).

Definition set_size_inches (width height : Q) : M unit :=
  fun w => (Ok tt, mkworld (cwd w) (fs w)
                     (mkFigure (axes (figure w)) (width, height)) (theme w)).

(** [figure.savefig(name)]: the figure as it is now goes to the file
    [name], replacing what was there. *)
Definition savefig (name : string) : M unit :=
  fun w =>
    let p := os.resolve (cwd w) name in
    if negb (renders (figure w)) then (Raise RenderError, w)
    else
      match fs w !! p with
      | Some Dir => (Raise IsADirectoryError, w)
      | _ =>
          match fs w !! os.parent p with
          | Some Dir =>
              (Ok tt, mkworld (cwd w) (<[p := File (Png (figure w))]> (fs w))
                        (figure w) (theme w))
          | Some (File _) => (Raise NotADirectoryError, w)
          | None => (Raise FileNotFoundError, w)
          end
      end.

(** [figure.clf()] removes what was drawn and keeps the size. *)
Definition clf : M unit :=
  fun w => (Ok tt, mkworld (cwd w) (fs w)
                     (mkFigure [] (size_inches (figure w))) (theme w)).

(** ** The script *)

(** Body of the loop over the categories of the master file. *)
Definition chart (data_master data_current : dataset) (pallet : string) : M unit :=
  tests <- lift (getitem data_master pallet) ;;
  dataframe_master <- lift (pandas.DataFrame tests) ;;
  dataframe_master <- lift (pandas.melt dataframe_master "Test" "Time") ;;
  let dataframe_master := pandas.setitem dataframe_master "branch" (pandas.Str "master") in
  tests <- lift (getitem data_current pallet) ;;
  dataframe_current <- lift (pandas.DataFrame tests) ;;
  dataframe_current <- lift (pandas.melt dataframe_current "Test" "Time") ;;
  let dataframe_current := pandas.setitem dataframe_current "branch" (pandas.Str "current") in
  concated <- lift (pandas.concat [dataframe_master; dataframe_current] true) ;;
  boxplot concated ;;;
  tests <- lift (getitem data_master pallet) ;;
  let height := (item_height * len tests)%Q in
  set_size_inches figure_width height ;;;
  savefig (pallet ++ ".png") ;;;
  clf.

Definition main (argv : list string) : M unit :=
  current_folder <- os.getcwd ;;
  let path := os.path.join current_folder "results" in
  there <- os.path.exists_ path ;;
  (if negb there then os.mkdir path else ret tt) ;;;
  name <- lift (sys_argv argv 1) ;;
  read_file <- open name ;;
  data_master <- lift (json.load read_file) ;;
  name <- lift (sys_argv argv 2) ;;
  read_file <- open name ;;
  data_current <- lift (json.load read_file) ;;
  os.chdir path ;;;
  set_theme "ticks" "pastel" ;;;
  for_each (keys data_master) (chart data_master data_current).

End Script.

(** ** Vocabulary for the properties *)

(** Lines 26-28 and 30-32 of the script: one branch's table of a category,
    unpivoted and labelled. *)
Definition long_form (tests : category) (branch : string) : result pandas.frame :=
  match pandas.DataFrame tests with
  | Ok f =>
      match pandas.melt f "Test" "Time" with
      | Ok f' => Ok (pandas.setitem f' "branch" (pandas.Str branch))
      | Raise e => Raise e
      end
  | Raise e => Raise e
  end.

(** Lines 26-34: the table handed to [boxplot] for a category. *)
Definition combined (data_master data_current : dataset) (pallet : string)
    : result pandas.frame :=
  match getitem data_master pallet with
  | Ok tm =>
      match long_form tm "master" with
      | Ok fm =>
          match getitem data_current pallet with
          | Ok tc =>
              match long_form tc "current" with
              | Ok fc => pandas.concat [fm; fc] true
              | Raise e => Raise e
              end
          | Raise e => Raise e
          end
      | Raise e => Raise e
      end
  | Raise e => Raise e
  end.

(** The figure as it stands when [savefig] is reached for a category, on a
    figure that was blank when the category began. *)
Definition picture (data_master data_current : dataset) (pallet : string)
    : result Figure :=
  match combined data_master data_current pallet, getitem data_master pallet with
  | Ok t, Ok tests => Ok (mkFigure [t] (figure_width, item_height * len tests)%Q)
  | Raise e, _ => Raise e
  | _, Raise e => Raise e
  end.

(** Every test of the category has [n] samples. *)
Definition samples_per_test (c : category) (n : nat) : Prop :=
  Forall (fun kv => length (snd kv) = n) c.

(** A category pandas tabulates: equally many samples in every test, and
    no test called like the value column. *)
Definition tidy (c : category) (n : nat) : Prop :=
  samples_per_test c n /\ "Time" ∉ keys c.

(** Samples of a category, counted over all its tests. *)
Definition is_number (s : sample) : bool :=
  match s with Some _ => true | None => false end.
Definition present (c : category) : nat :=
  list_sum (map (fun kv => length (List.filter is_number (snd kv))) c).
Definition missing (c : category) : nat :=
  list_sum (map (fun kv => length (List.filter (fun s => negb (is_number s)) (snd kv))) c).

Definition is_nan (x : pandas.cell) : bool :=
  match x with pandas.NaN => true | _ => false end.
Definition count_nan (col : list pandas.cell) : nat :=
  length (List.filter is_nan col).

(** The reading of "lossless in count" that pads ragged columns and drops
    the padding again: a table is built and has one row per present sample. *)
Definition lossless_in_count (c : category) (branch : string) : Prop :=
  exists t, long_form c branch = Ok t /\ pandas.nrows t = present c.

(** A category name that is a plain file name. *)
Fixpoint has_slash (s : string) : bool :=
  match s with
  | EmptyString => false
  | String c s' => Ascii.eqb c "/"%char || has_slash s'
  end.

Definition plain (s : string) : Prop := has_slash s = false.

Definition is_dir (m : gmap location node) (p : location) : bool :=
  match m !! p with Some Dir => true | _ => false end.

(** The [results] directory of a process started in [d], and the file a
    category's chart goes to. *)
Definition results_of (d : location) : location := d ++ ["results"].
Definition chart_file (d : location) (pallet : string) : location :=
  results_of d ++ [(pallet ++ ".png")%string].

(** The value of a cell of a row. *)
Definition field (r : list (string * pandas.cell)) (name : string) : option pandas.cell :=
  dict_find r name.

(** The table of one branch, column by column. *)
Definition long_table (c : category) (n : nat) (branch : string) : pandas.frame :=
  pandas.mkframe (seq 0 (n * length c))
    [ ("Test", flat_map (fun kv => repeat (pandas.Str (fst kv)) n) c);
      ("Time", flat_map (fun kv => map pandas.cell_of_sample (snd kv)) c);
      ("branch", repeat (pandas.Str branch) (n * length c)) ].

(** The world once figure [f] has gone to location [p] and has been
    cleared. *)
Definition saved (f : Figure) (p : location) (w : world) : world :=
  mkworld (cwd w) (<[p := File (Png f)]> (fs w)) (mkFigure [] (size_inches f)) (theme w).

(** The world after the chart of one category, for categories that get
    one. *)
Definition charted (data_master data_current : dataset) (w : world)
    (pallet : string) : world :=
  match picture data_master data_current pallet with
  | Ok f => saved f (cwd w ++ [(pallet ++ ".png")%string]) w
  | Raise _ => w
  end.

(** The world when the loop over the categories begins: [results] exists,
    the process is in it, the theme is set. *)
Definition prepared (w : world) : world :=
  mkworld (results_of (cwd w)) (<[results_of (cwd w) := Dir]> (fs w))
          (figure w) (Some ("ticks", "pastel")).

(** pandas tabulates the category [pallet] of [d]. *)
Definition tabulates (d : dataset) (pallet : string) : Prop :=
  exists c n, getitem d pallet = Ok c /\ tidy c n.

(** The plotting layer accepts the chart of a category. *)
Definition drawable (plots : pandas.frame -> bool) (renders : Figure -> bool)
    (data_master data_current : dataset) (pallet : string) : Prop :=
  forall f, picture data_master data_current pallet = Ok f ->
            Forall (fun t => plots t = true) (axes f) /\ renders f = true.

(** Everything the chart of one category needs, for a process started in
    [d] over the files [m]. *)
Definition chartable (plots : pandas.frame -> bool) (renders : Figure -> bool)
    (data_master data_current : dataset) (d : location) (m : gmap location node)
    (pallet : string) : Prop :=
  plain pallet /\
  tabulates data_master pallet /\
  tabulates data_current pallet /\
  drawable plots renders data_master data_current pallet /\
  m !! chart_file d pallet <> Some Dir.

(** The start of a run that gets as far as the loop: [results] is a
    directory or can be made, and both arguments name files that parse. *)
Definition ready (d : location) (m : gmap location node) (argv : list string)
    (data_master data_current : dataset) : Prop :=
  (m !! results_of d = Some Dir \/ (m !! results_of d = None /\ m !! d = Some Dir)) /\
  exists a1 a2,
    argv !! 1 = Some a1 /\ argv !! 2 = Some a2 /\
    m !! os.resolve d a1 = Some (File (JsonText data_master)) /\
    m !! os.resolve d a2 = Some (File (JsonText data_current)).

(** Files written one after the other. *)
Definition write_all (ws : list (location * node)) (m : gmap location node)
    : gmap location node :=
  fold_left (fun m' w => <[fst w := snd w]> m') ws m.




(** ** Sample inputs *)

(** A plotting layer that accepts everything. *)
Definition accepts {A} (x : A) : bool := true.

Definition num (z : Z) : sample := Some (inject_Z z).

Definition scenario_master : dataset :=
  [("cat1", [("testA", [num 1; num 2; num 3]); ("testB", [num 4; num 5; num 6])])].
Definition scenario_current : dataset :=
  [("cat1", [("testA", [num 2; num 3; num 4]); ("testB", [num 3; num 4; num 5])])].

Definition home : location := ["home"].

(** A disk with the two result files in the start directory. *)
Definition disk (dm dc : dataset) : gmap location node :=
  <[ ["home"; "current.json"] := File (JsonText dc) ]>
    (<[ ["home"; "master.json"] := File (JsonText dm) ]>
       (<[ home := Dir ]> ∅)).

Definition command : list string :=
  ["performance-boxplot.py"; "master.json"; "current.json"].

(** Ragged samples, a category the current file lacks, a test only the
    current file has. *)
Definition ragged : category := [("a", [num 1; num 2; num 3]); ("b", [num 1; num 2])].

(** Where [savefig] puts the chart of a category, for a process started in
    [d]; for a plain name this is [chart_file d pallet]. *)
Definition output (d : location) (pallet : string) : location :=
  os.resolve (results_of d) (pallet ++ ".png").

Definition other_category : dataset := [("cat2", [("testA", [num 1; num 2])])].

(** A disk that already has [results], with a different document under
    the master file's name in it. *)
Definition decoy_disk : gmap location node :=
  <[ ["home"; "results"; "master.json"] := File (JsonText other_category) ]>
    (<[ ["home"; "results"] := Dir ]> (disk scenario_master scenario_current)).

(** A disk without the current file. *)
Definition half_disk : gmap location node :=
  <[ ["home"; "master.json"] := File (JsonText scenario_master) ]> (<[ home := Dir ]> ∅).

(** ** Further vocabulary *)

(** The long-form record of one sample. *)
Definition record (name branch : string) (s : sample) : list (string * pandas.cell) :=
  [ ("Test", pandas.Str name);
    ("Time", pandas.cell_of_sample s);
    ("branch", pandas.Str branch) ].

(** One record per test and sample, test after test in dict order, the
    samples of a test in their order. *)
Definition records (c : category) (branch : string)
    : list (list (string * pandas.cell)) :=
  flat_map (fun kv => map (record (fst kv) branch) (snd kv)) c.


(** The category [pallet] of [d] is there and pandas refuses it. *)
Definition untidy (d : dataset) (pallet : string) : Prop :=
  exists c, getitem d pallet = Ok c /\ ~ (exists n, tidy c n).

(** The world once [results] has been seen to and nothing else has
    happened. *)
Definition ensured (w : world) : world :=
  mkworld (cwd w) (<[results_of (cwd w) := Dir]> (fs w)) (figure w) (theme w).

(** A disk on which [results] is a regular file. *)
Definition blocked_disk : gmap location node :=
  <[ ["home"; "results"] := File Other ]> (disk scenario_master scenario_current).

(** Tactics for goals over the sample inputs. *)

Ltac on_disk :=
  split; [right; split; reflexivity
         | exists "master.json", "current.json"; repeat split; reflexivity].

Ltac all_accepted :=
  let f := fresh in let H := fresh in
  intros f H; split; [apply Forall_forall; reflexivity | reflexivity].



(** * Properties *)

(** ** Tabulating one branch *)

Lemma flat_map_map {A B C} (g : A -> B) (h : B -> list C) (l : list A) :
  flat_map h (map g l) = flat_map (fun a => h (g a)) l.
Proof. induction l as [|a l IH]; simpl; [done | by rewrite IH]. Qed.

Lemma existsb_eqb_elem (x : string) (l : list string) :
  existsb (String.eqb x) l = false <-> x ∉ l.
Proof.
  induction l as [|y l IH]; simpl.
  - split; [intros _ H; inversion H | done].
  - rewrite orb_false_iff, IH, not_elem_of_cons.
    by rewrite String.eqb_neq.
Qed.

Lemma samples_forallb (rest : category) (n : nat) :
  forallb (fun kv => Nat.eqb (length (snd kv)) n) rest = true <->
  samples_per_test rest n.
Proof.
  unfold samples_per_test. rewrite forallb_forall, Forall_forall.
  split; intros H kv Hin.
  - apply Nat.eqb_eq, H. by apply list_elem_of_In.
  - apply Nat.eqb_eq, H. by apply list_elem_of_In.
Qed.

(** What [pandas.DataFrame] answers, in terms of its argument alone. *)
Lemma DataFrame_uniform (c : category) (n : nat) :
  samples_per_test c n ->
  pandas.DataFrame c =
    Ok (pandas.mkframe (seq 0 (match c with [] => 0 | _ => n end))
          (map (fun kv => (fst kv, map pandas.cell_of_sample (snd kv))) c)).
Proof.
  intros H. destruct c as [|[k v] rest]; [done|].
  unfold pandas.DataFrame.
  pose proof (Forall_inv H) as Hv. simpl in Hv. subst n.
  apply Forall_inv_tail in H. apply samples_forallb in H.
  by rewrite H.
Qed.

Lemma DataFrame_ragged (c : category) :
  ~ (exists n, samples_per_test c n) ->
  pandas.DataFrame c = Raise ValueError.
Proof.
  intros H. destruct c as [|[k v] rest].
  - exfalso. apply H. exists 0. constructor.
  - unfold pandas.DataFrame.
    destruct (forallb _ rest) eqn:E; [|done].
    exfalso. apply H. exists (length v).
    constructor; [done | by apply samples_forallb].
Qed.

Lemma DataFrame_ok_uniform (c : category) (f : pandas.frame) :
  pandas.DataFrame c = Ok f -> exists n, samples_per_test c n.
Proof.
  intros H. destruct c as [|[k v] rest].
  - exists 0. constructor.
  - unfold pandas.DataFrame in H.
    destruct (forallb _ rest) eqn:E; [|done].
    exists (length v). constructor; [done | by apply samples_forallb].
Qed.

Lemma long_form_tidy (c : category) (n : nat) (branch : string) :
  tidy c n -> long_form c branch = Ok (long_table c n branch).
Proof.
  intros [Hn Ht]. unfold long_form.
  rewrite (DataFrame_uniform c n Hn).
  unfold pandas.melt, pandas.columns, pandas.nrows.
  cbn [pandas.data pandas.index]. rewrite map_map. cbn [fst].
  replace (existsb _ _) with false
    by (symmetry; by apply existsb_eqb_elem).
  rewrite length_seq, length_map, !flat_map_map.
  unfold pandas.setitem, pandas.nrows, long_table.
  cbn [pandas.data pandas.index fst snd]. rewrite length_seq.
  replace (match c with [] => 0 | _ :: _ => n end * length c) with (n * length c)
    by (destruct c; simpl; lia).
  destruct c; reflexivity.
Qed.

Lemma long_form_ok_tidy (c : category) (branch : string) (t : pandas.frame) :
  long_form c branch = Ok t -> exists n, tidy c n.
Proof.
  unfold long_form. intros H.
  destruct (pandas.DataFrame c) as [f|e] eqn:Ef; [|done].
  destruct (DataFrame_ok_uniform c f Ef) as [n Hn].
  exists n. split; [done|].
  rewrite (DataFrame_uniform c n Hn) in Ef. injection Ef as <-.
  unfold pandas.melt, pandas.columns in H. cbn [pandas.data] in H.
  rewrite map_map in H. cbn [fst] in H.
  destruct (existsb _ _) eqn:E; [done|].
  by apply existsb_eqb_elem in E.
Qed.

Lemma long_form_error (c : category) (branch : string) (e : exn) :
  long_form c branch = Raise e -> e = ValueError.
Proof.
  unfold long_form, pandas.DataFrame. destruct c as [|[k v] rest].
  - unfold pandas.melt. destruct (existsb _ _); [congruence | discriminate].
  - destruct (forallb _ rest); [|congruence].
    unfold pandas.melt. destruct (existsb _ _); [congruence | discriminate].
Qed.

Lemma filter_split_length {A} (f : A -> bool) (l : list A) :
  length (List.filter f l) + length (List.filter (fun x => negb (f x)) l) = length l.
Proof.
  induction l as [|a l IH]; simpl; [done|].
  destruct (f a); simpl; lia.
Qed.

Lemma present_missing (c : category) (n : nat) :
  samples_per_test c n -> present c + missing c = n * length c.
Proof.
  unfold present, missing. induction 1 as [|kv c Hkv _ IH]; simpl; [lia|].
  pose proof (filter_split_length is_number (snd kv)). lia.
Qed.

Lemma count_nan_app (l1 l2 : list pandas.cell) :
  count_nan (l1 ++ l2) = count_nan l1 + count_nan l2.
Proof. unfold count_nan. by rewrite List.filter_app, length_app. Qed.

Lemma count_nan_samples (v : list sample) :
  count_nan (map pandas.cell_of_sample v) =
  length (List.filter (fun s => negb (is_number s)) v).
Proof.
  unfold count_nan. induction v as [|[q|] v IH]; simpl; [done | done | by rewrite IH].
Qed.

Lemma count_nan_times (c : category) :
  count_nan (flat_map (fun kv => map pandas.cell_of_sample (snd kv)) c) = missing c.
Proof.
  unfold missing. induction c as [|kv c IH]; simpl; [done|].
  by rewrite count_nan_app, count_nan_samples, IH.
Qed.

Lemma length_times (c : category) (n : nat) :
  samples_per_test c n ->
  length (flat_map (fun kv => map pandas.cell_of_sample (snd kv)) c) = n * length c.
Proof.
  induction 1 as [|kv c Hkv _ IH]; simpl; [lia|].
  rewrite length_app, length_map, IH. lia.
Qed.

Lemma length_names (c : category) (n : nat) :
  length (flat_map (fun kv => repeat (pandas.Str (fst kv)) n) c) = n * length c.
Proof.
  induction c as [|kv c IH]; simpl; [lia|].
  rewrite length_app, repeat_length, IH. lia.
Qed.

(** C1 (as amended).  In a category whose tests all have [n] samples, the
    table of one branch has [n] rows per test: one row per sample, whether
    the sample is a number or missing.  Missing samples stay in the [Time]
    column as NaN cells, so the row count is the number of present samples
    plus the number of missing ones.  Tests with different sample counts
    are not padded: [pandas.DataFrame] refuses them and no table is built. *)
Theorem long_form_row_count (c : category) (n : nat) (branch : string) :
  tidy c n ->
  (exists t times,
      long_form c branch = Ok t /\
      pandas.column t "Time" = Some times /\
      length times = pandas.nrows t /\
      pandas.nrows t = n * length c /\
      pandas.nrows t = present c + missing c /\
      count_nan times = missing c) /\
  (forall c' : category,
      ~ (exists n', samples_per_test c' n') ->
      long_form c' branch = Raise ValueError).
Proof.
  intros Ht. split.
  - exists (long_table c n branch),
           (flat_map (fun kv => map pandas.cell_of_sample (snd kv)) c).
    destruct Ht as [Hn Hname].
    repeat split.
    + by apply long_form_tidy.
    + unfold pandas.nrows, long_table; simpl.
      rewrite length_seq. by apply length_times.
    + unfold pandas.nrows, long_table; simpl. by rewrite length_seq.
    + unfold pandas.nrows, long_table; simpl.
      rewrite length_seq. symmetry. by apply present_missing.
    + apply count_nan_times.
  - intros c' Hc'. unfold long_form. by rewrite (DataFrame_ragged c' Hc').
Qed.

(** ** Concatenating the two branches *)

Lemma concat_long (i1 i2 : list nat) (A1 B1 C1 A2 B2 C2 : list pandas.cell) :
  pandas.concat
    [ pandas.mkframe i1 [("Test", A1); ("Time", B1); ("branch", C1)];
      pandas.mkframe i2 [("Test", A2); ("Time", B2); ("branch", C2)] ] true =
  Ok (pandas.mkframe (seq 0 (length i1 + length i2))
        [("Test", A1 ++ A2); ("Time", B1 ++ B2); ("branch", C1 ++ C2)]).
Proof.
  unfold pandas.concat, pandas.nrows, pandas.column, pandas.columns.
  cbn. by rewrite !app_nil_r, Nat.add_0_r.
Qed.

Lemma rows_long (n : nat) (A B C : list pandas.cell) :
  pandas.rows (pandas.mkframe (seq 0 n) [("Test", A); ("Time", B); ("branch", C)]) =
  map (fun i => [("Test", nth i A pandas.NaN); ("Time", nth i B pandas.NaN);
                 ("branch", nth i C pandas.NaN)]) (seq 0 n).
Proof. unfold pandas.rows, pandas.nrows, pandas.row. cbn. by rewrite length_seq. Qed.

Lemma rows_append (n1 n2 : nat) (A1 B1 C1 A2 B2 C2 : list pandas.cell) :
  length A1 = n1 -> length B1 = n1 -> length C1 = n1 ->
  pandas.rows (pandas.mkframe (seq 0 (n1 + n2))
                 [("Test", A1 ++ A2); ("Time", B1 ++ B2); ("branch", C1 ++ C2)]) =
  pandas.rows (pandas.mkframe (seq 0 n1) [("Test", A1); ("Time", B1); ("branch", C1)]) ++
  pandas.rows (pandas.mkframe (seq 0 n2) [("Test", A2); ("Time", B2); ("branch", C2)]).
Proof.
  intros HA HB HC. rewrite !rows_long, seq_app, map_app.
  apply (f_equal2 app).
  - apply map_ext_in. intros i Hi. apply in_seq in Hi.
    by rewrite !app_nth1 by lia.
  - rewrite Nat.add_0_l, <- (Nat.add_0_r n1) at 1.
    rewrite <- (fmap_add_seq n1 0 n2). change (base.fmap ?f ?l) with (map f l).
    rewrite map_map. apply map_ext. intros j.
    rewrite <- HA at 1. rewrite <- HB at 1. rewrite <- HC at 1.
    by rewrite !app_nth2_plus.
Qed.



(** The combined table, when there is one, is the master table with the
    current table under it. *)
Lemma combined_rows (dm dc : dataset) (pallet : string) (t : pandas.frame) :
  combined dm dc pallet = Ok t ->
  exists m c n1 n2,
    getitem dm pallet = Ok m /\ getitem dc pallet = Ok c /\
    tidy m n1 /\ tidy c n2 /\
    pandas.rows t = pandas.rows (long_table m n1 "master") ++
                    pandas.rows (long_table c n2 "current") /\
    pandas.index t = seq 0 (n1 * length m + n2 * length c).
Proof.
  unfold combined. intros H.
  destruct (getitem dm pallet) as [m|] eqn:Em; [|done].
  destruct (long_form m "master") as [fm|] eqn:Efm; [|done].
  destruct (getitem dc pallet) as [c|] eqn:Ec; [|done].
  destruct (long_form c "current") as [fc|] eqn:Efc; [|done].
  destruct (long_form_ok_tidy _ _ _ Efm) as [n1 H1].
  destruct (long_form_ok_tidy _ _ _ Efc) as [n2 H2].
  exists m, c, n1, n2. do 4 (split; [done|]).
  rewrite (long_form_tidy _ _ _ H1) in Efm. injection Efm as <-.
  rewrite (long_form_tidy _ _ _ H2) in Efc. injection Efc as <-.
  unfold long_table in H. rewrite concat_long in H. injection H as <-.
  rewrite !length_seq. split; [|done].
  unfold long_table. apply rows_append.
  - apply length_names.
  - apply length_times, H1.
  - apply repeat_length.
Qed.


(** ** Paths *)

Lemma split_plain (s : string) : plain s -> os.split s = [s].
Proof.
  unfold plain. induction s as [|c s IH]; [done|].
  cbn [has_slash os.split]. intros H. apply orb_false_iff in H as [Hc Hs].
  by rewrite Hc, (IH Hs).
Qed.

Lemma append_cons (c : ascii) (s1 s2 : string) :
  (String c s1 ++ s2)%string = String c (s1 ++ s2).
Proof. reflexivity. Qed.

Lemma has_slash_append (s1 s2 : string) :
  has_slash (s1 ++ s2) = has_slash s1 || has_slash s2.
Proof.
  induction s1 as [|c s1 IH]; [done|].
  change (has_slash (String c s1 ++ s2))
    with (Ascii.eqb c "/" || has_slash (s1 ++ s2)).
  change (has_slash (String c s1)) with (Ascii.eqb c "/" || has_slash s1).
  by rewrite IH, orb_assoc.
Qed.

Lemma string_length_append (s1 s2 : string) :
  String.length (s1 ++ s2) = String.length s1 + String.length s2.
Proof. induction s1 as [|c s1 IH]; [done|]. rewrite append_cons. cbn. by rewrite IH. Qed.

Lemma png_not_short (pallet s : string) :
  String.length s < 4 -> String.eqb (pallet ++ ".png") s = false.
Proof.
  intros H. apply String.eqb_neq. intros E.
  apply (f_equal String.length) in E. rewrite string_length_append in E.
  cbn in E. lia.
Qed.

Lemma png_relative (pallet : string) :
  plain pallet -> os.is_absolute (pallet ++ ".png") = false.
Proof.
  unfold plain. destruct pallet as [|c s]; [done|].
  rewrite append_cons. cbn [has_slash os.is_absolute].
  intros H. by apply orb_false_iff in H as [-> _].
Qed.

(** A chart named after a plain category lands directly in the working
    directory. *)
Lemma resolve_png (base : location) (pallet : string) :
  plain pallet ->
  os.resolve base (pallet ++ ".png") = base ++ [(pallet ++ ".png")%string].
Proof.
  intros H. unfold os.resolve.
  rewrite (png_relative _ H), split_plain.
  - cbn [fold_left]. unfold os.step.
    by rewrite !png_not_short by (cbn; lia).
  - unfold plain. rewrite has_slash_append, H. reflexivity.
Qed.

Lemma join_results (d : location) : os.path.join d "results" = results_of d.
Proof. reflexivity. Qed.

Lemma parent_child (p : location) (x : string) : os.parent (p ++ [x]) = p.
Proof. apply removelast_last. Qed.



(** ** One category *)

Section Properties.

Variable plots : pandas.frame -> bool.
Variable renders : Figure -> bool.

Lemma lift_bind {A B} (r : result A) (k : A -> M B) (w : world) :
  bind (lift r) k w = match r with Ok a => k a w | Raise e => (Raise e, w) end.
Proof. by destruct r. Qed.

(** The loop body is the table of lines 26-34 followed by the plotting
    calls. *)
Lemma chart_combined (dm dc : dataset) (pallet : string) (w : world) :
  chart plots renders dm dc pallet w =
  match combined dm dc pallet with
  | Ok t =>
      (boxplot plots t ;;;
       tests <- lift (getitem dm pallet) ;;
       set_size_inches figure_width (item_height * len tests)%Q ;;;
       savefig renders (pallet ++ ".png") ;;;
       clf) w
  | Raise e => (Raise e, w)
  end.
Proof.
  unfold chart, combined, long_form. rewrite !lift_bind.
  destruct (getitem dm pallet) as [tm|]; [|done].
  rewrite !lift_bind.
  destruct (pandas.DataFrame tm) as [fm|]; [|done].
  rewrite !lift_bind.
  destruct (pandas.melt fm "Test" "Time") as [fm'|]; [|done].
  rewrite !lift_bind.
  destruct (getitem dc pallet) as [tc|]; [|done].
  rewrite !lift_bind.
  destruct (pandas.DataFrame tc) as [fc|]; [|done].
  rewrite !lift_bind.
  destruct (pandas.melt fc "Test" "Time") as [fc'|]; [|done].
  rewrite !lift_bind. reflexivity.
Qed.

Lemma picture_inv (dm dc : dataset) (pallet : string) (f : Figure) :
  picture dm dc pallet = Ok f ->
  exists t tests,
    combined dm dc pallet = Ok t /\ getitem dm pallet = Ok tests /\
    f = mkFigure [t] (figure_width, item_height * len tests)%Q.
Proof.
  unfold picture. intros H.
  destruct (combined dm dc pallet) as [t|]; [|done].
  destruct (getitem dm pallet) as [tests|]; [|done].
  injection H as <-. by exists t, tests.
Qed.

(** On a blank figure, a category that tabulates and draws is saved under
    its own name and the figure is blank again. *)
Lemma chart_saved (dm dc : dataset) (pallet : string) (w : world) (f : Figure) :
  picture dm dc pallet = Ok f ->
  Forall (fun t => plots t = true) (axes f) ->
  renders f = true ->
  axes (figure w) = [] ->
  fs w !! os.resolve (cwd w) (pallet ++ ".png") <> Some Dir ->
  fs w !! os.parent (os.resolve (cwd w) (pallet ++ ".png")) = Some Dir ->
  chart plots renders dm dc pallet w =
    (Ok tt, saved f (os.resolve (cwd w) (pallet ++ ".png")) w).
Proof.
  intros Hp Hplots Hrenders Hblank Hfile Hdir.
  destruct (picture_inv _ _ _ _ Hp) as (t & tests & Ht & Htests & ->).
  rewrite chart_combined, Ht.
  apply Forall_inv in Hplots. cbn [axes] in Hplots.
  unfold bind at 1. unfold boxplot at 1. rewrite Hplots.
  rewrite lift_bind, Htests.
  unfold bind at 1. unfold set_size_inches at 1.
  unfold bind at 1. unfold savefig at 1.
  cbn [figure cwd fs axes size_inches theme].
  rewrite Hblank. cbn [app]. rewrite Hrenders. cbn [negb].
  destruct (fs w !! os.resolve (cwd w) (pallet ++ ".png")) as [[|c]|] eqn:E;
    [done | |]; rewrite Hdir; reflexivity.
Qed.

Lemma picture_tabulated (dm dc : dataset) (pallet : string) :
  tabulates dm pallet -> tabulates dc pallet ->
  exists f, picture dm dc pallet = Ok f.
Proof.
  intros (m & n1 & Hm & H1) (c & n2 & Hc & H2).
  unfold picture, combined. rewrite Hm, Hc.
  rewrite (long_form_tidy _ _ _ H1), (long_form_tidy _ _ _ H2).
  unfold long_table. rewrite concat_long. eauto.
Qed.

(** ** The loop over the categories *)



Lemma charted_theme (dm dc : dataset) (l : list string) (w : world) :
  theme (fold_left (charted dm dc) l w) = theme w.
Proof.
  revert w. induction l as [|a l IH]; intros w; [done|].
  cbn [fold_left]. rewrite IH. unfold charted.
  by destruct (picture dm dc a).
Qed.

Lemma charted_blank (dm dc : dataset) (l : list string) (w : world) :
  axes (figure w) = [] -> axes (figure (fold_left (charted dm dc) l w)) = [].
Proof.
  revert w. induction l as [|a l IH]; intros w H; [done|].
  cbn [fold_left]. apply IH. unfold charted.
  by destruct (picture dm dc a).
Qed.



Lemma loop_charted (dm dc : dataset) (d : location) (l : list string) (w : world) :
  cwd w = results_of d ->
  axes (figure w) = [] ->
  fs w !! results_of d = Some Dir ->
  (forall pallet, pallet ∈ l -> chartable plots renders dm dc d (fs w) pallet) ->
  for_each l (chart plots renders dm dc) w =
    (Ok tt, fold_left (charted dm dc) l w).
Proof.
  revert w. induction l as [|a l IH]; intros w Hcwd Hblank Hdir Hall; [done|].
  cbn [for_each fold_left].
  destruct (Hall a) as (Hplain & Hm & Hc & Hdraw & Hfile); [by left|].
  destruct (picture_tabulated _ _ _ Hm Hc) as [f Hf].
  destruct (Hdraw f Hf) as [Hplots Hrenders].
  unfold bind at 1.
  rewrite (chart_saved dm dc a w f Hf Hplots Hrenders Hblank).
  - replace (saved f (os.resolve (cwd w) (a ++ ".png")) w) with (charted dm dc w a)
      by (unfold charted; by rewrite Hf, resolve_png).
    assert (Hfs : forall p, p <> chart_file d a ->
              fs (charted dm dc w a) !! p = fs w !! p).
    { intros p Hp. unfold charted. rewrite Hf. cbn [saved fs].
      rewrite lookup_insert_ne; [done|]. by rewrite Hcwd. }
    apply IH.
    + unfold charted. by rewrite Hf.
    + unfold charted. by rewrite Hf.
    + rewrite Hfs; [done|]. unfold chart_file. intros E.
      apply (f_equal length) in E. rewrite length_app in E. cbn in E. lia.
    + intros pallet Hin.
      destruct (Hall pallet) as (Hplain' & Hm' & Hc' & Hdraw' & Hfile'); [by right|].
      do 4 (split; [done|]).
      unfold charted. rewrite Hf. cbn [saved fs]. rewrite Hcwd.
      destruct (decide (chart_file d a = chart_file d pallet)) as [<-|Hne].
      * fold (chart_file d a). by rewrite lookup_insert_eq.
      * fold (chart_file d a). by rewrite lookup_insert_ne.
  - rewrite resolve_png by done. by rewrite Hcwd.
  - rewrite resolve_png by done. by rewrite parent_child, Hcwd.
Qed.

(** ** Before the loop *)

Lemma sys_argv_some (argv : list string) (i : nat) (a : string) :
  argv !! i = Some a -> sys_argv argv i = Ok a.
Proof. unfold sys_argv. by intros ->. Qed.

Lemma open_file (name : string) (w : world) (c : content) :
  fs w !! os.resolve (cwd w) name = Some (File c) -> open name w = (Ok c, w).
Proof. unfold open. by intros ->. Qed.

(** With [results] in place or makeable and two readable inputs, the run
    is the loop over the master categories, begun in [results]. *)
Lemma main_loaded (argv : list string) (w : world) (dm dc : dataset) :
  ready (cwd w) (fs w) argv dm dc ->
  main plots renders argv w =
    for_each (keys dm) (chart plots renders dm dc) (prepared w).
Proof.
  intros [Hres (a1 & a2 & H1 & H2 & Hf1 & Hf2)].
  unfold main. unfold bind at 1. unfold os.getcwd at 1.
  rewrite join_results.
  unfold bind at 1. unfold os.path.exists_ at 1.
  destruct Hres as [Hdir | [Hnone Hd]].
  - rewrite bool_decide_eq_true_2 by (rewrite Hdir; eauto). cbn [negb].
    unfold bind at 1. unfold ret at 1.
    rewrite lift_bind, (sys_argv_some _ _ _ H1).
    unfold bind at 1. rewrite (open_file _ _ _ Hf1).
    rewrite lift_bind. cbn [json.load].
    rewrite lift_bind, (sys_argv_some _ _ _ H2).
    unfold bind at 1. rewrite (open_file _ _ _ Hf2).
    rewrite lift_bind. cbn [json.load].
    unfold bind at 1. unfold os.chdir at 1. rewrite Hdir.
    unfold bind at 1. unfold set_theme at 1. cbn [cwd fs figure theme].
    unfold prepared. by rewrite (insert_id _ _ _ Hdir).
  - rewrite bool_decide_eq_false_2 by (rewrite Hnone; by intros [? ?]).
    cbn [negb]. unfold bind at 1. unfold os.mkdir at 1.
    rewrite Hnone. unfold results_of at 1. rewrite parent_child, Hd.
    assert (Hne1 : results_of (cwd w) <> os.resolve (cwd w) a1) by congruence.
    assert (Hne2 : results_of (cwd w) <> os.resolve (cwd w) a2) by congruence.
    rewrite lift_bind, (sys_argv_some _ _ _ H1).
    unfold bind at 1. unfold open at 1. cbn [cwd fs].
    rewrite (lookup_insert_ne _ _ _ _ Hne1), Hf1.
    rewrite lift_bind. cbn [json.load].
    rewrite lift_bind, (sys_argv_some _ _ _ H2).
    unfold bind at 1. unfold open at 1. cbn [cwd fs].
    rewrite (lookup_insert_ne _ _ _ _ Hne2), Hf2.
    rewrite lift_bind. cbn [json.load].
    unfold bind at 1. unfold os.chdir at 1. cbn [cwd fs].
    rewrite lookup_insert_eq.
    unfold bind at 1. unfold set_theme at 1. cbn [cwd fs figure theme].
    reflexivity.
Qed.

Lemma results_not_chart_file (d : location) (pallet : string) :
  results_of d <> chart_file d pallet.
Proof.
  unfold chart_file. intros E. apply (f_equal length) in E.
  rewrite length_app in E. cbn in E. lia.
Qed.

Lemma chartable_prepared (dm dc : dataset) (d : location)
    (m : gmap location node) (pallet : string) :
  chartable plots renders dm dc d m pallet ->
  chartable plots renders dm dc d (<[results_of d := Dir]> m) pallet.
Proof.
  intros (? & ? & ? & ? & Hfile). do 4 (split; [done|]).
  by rewrite lookup_insert_ne by apply results_not_chart_file.
Qed.

(** A run whose every category can be charted goes through the whole
    loop. *)
Lemma main_charted (argv : list string) (d : location) (m : gmap location node)
    (dm dc : dataset) :
  ready d m argv dm dc ->
  (forall pallet, pallet ∈ keys dm -> chartable plots renders dm dc d m pallet) ->
  main plots renders argv (start d m) =
    (Ok tt, fold_left (charted dm dc) (keys dm) (prepared (start d m))).
Proof.
  intros Hready Hall.
  rewrite (main_loaded argv (start d m) dm dc Hready).
  apply (loop_charted dm dc d).
  - reflexivity.
  - reflexivity.
  - cbn. apply lookup_insert_eq.
  - intros pallet Hin. cbn. apply chartable_prepared. by apply Hall.
Qed.


End Properties.

(** ** The size of the figure *)







Section Figures.

Variable plots : pandas.frame -> bool.
Variable renders : Figure -> bool.


End Figures.

(** ** The scenario of the specification *)

Section Scenario.

Variable plots : pandas.frame -> bool.
Variable renders : Figure -> bool.

(** C5.  For master [{"cat1": {"testA": [1,2,3], "testB": [4,5,6]}}] and
    current [{"cat1": {"testA": [2,3,4], "testB": [3,4,5]}}] the run
    completes and adds exactly one file, [results/cat1.png]; the table
    behind it has 12 rows, the 6 rows of the master table labelled
    [master] followed by the 6 rows of the current table labelled
    [current]. *)
Theorem scenario_chart (argv : list string) (d : location) (m : gmap location node) :
  ready d m argv scenario_master scenario_current ->
  m !! chart_file d "cat1" <> Some Dir ->
  drawable plots renders scenario_master scenario_current "cat1" ->
  exists w' f t fm fc,
    main plots renders argv (start d m) = (Ok tt, w') /\
    fs w' = <[chart_file d "cat1" := File (Png f)]> (<[results_of d := Dir]> m) /\
    axes f = [t] /\
    length (pandas.rows t) = 12 /\
    long_form [("testA", [num 1; num 2; num 3]); ("testB", [num 4; num 5; num 6])] "master" = Ok fm /\
    long_form [("testA", [num 2; num 3; num 4]); ("testB", [num 3; num 4; num 5])] "current" = Ok fc /\
    pandas.rows t = pandas.rows fm ++ pandas.rows fc /\
    map (fun r => field r "branch") (pandas.rows fm) = repeat (Some (pandas.Str "master")) 6 /\
    map (fun r => field r "branch") (pandas.rows fc) = repeat (Some (pandas.Str "current")) 6.
Proof.
  intros Hready Hfile Hdraw.
  assert (Hall : forall pallet, pallet ∈ keys scenario_master ->
            chartable plots renders scenario_master scenario_current d m pallet).
  { intros pallet Hin. apply list_elem_of_singleton in Hin as ->.
    split; [reflexivity|]. split; [|split; [|done]].
    - eexists _, 3. split; [reflexivity|]. split.
      + repeat constructor.
      + by apply existsb_eqb_elem.
    - eexists _, 3. split; [reflexivity|]. split.
      + repeat constructor.
      + by apply existsb_eqb_elem. }
  rewrite (main_charted plots renders argv d m _ _ Hready Hall).
  cbn [keys scenario_master map fst fold_left]. unfold charted.
  destruct (picture scenario_master scenario_current "cat1") as [f|] eqn:Hf;
    [|by vm_compute in Hf].
  vm_compute in Hf. injection Hf as <-.
  eexists _, _, _, _, _. split; [reflexivity|].
  split; [reflexivity|]. split; [reflexivity|]. split; [reflexivity|].
  split; [vm_compute; reflexivity|]. split; [vm_compute; reflexivity|].
  split; [reflexivity|]. split; reflexivity.
Qed.

End Scenario.

(** ** A category or a test the current file lacks *)

Lemma dict_find_none {V} (d : dict V) (k : string) :
  dict_find d k = None <-> k ∉ keys d.
Proof.
  induction d as [|[k' v] d IH]; cbn [dict_find keys map fst].
  - split; [intros _ H; by apply elem_of_nil in H | done].
  - rewrite not_elem_of_cons. destruct (String.eqb k' k) eqn:E.
    + apply String.eqb_eq in E. split; [done | intros [H _]; by subst].
    + apply String.eqb_neq in E. rewrite IH. fold (keys d).
      split; [intros H; split; [congruence | done] | by intros [_ H]].
Qed.


Section Mismatch.

Variable plots : pandas.frame -> bool.
Variable renders : Figure -> bool.



End Mismatch.

(** ** Arguments and loading *)

Section Loading.

Variable plots : pandas.frame -> bool.
Variable renders : Figure -> bool.


(** The world once [results] has been seen to: nothing else has moved. *)
Lemma ensured_results (w : world) :
  fs w !! results_of (cwd w) = Some Dir \/
  (fs w !! results_of (cwd w) = None /\ fs w !! cwd w = Some Dir) ->
  (if negb (bool_decide (is_Some (fs w !! results_of (cwd w))))
   then os.mkdir (results_of (cwd w)) else ret tt) w =
  (Ok tt, mkworld (cwd w) (<[results_of (cwd w) := Dir]> (fs w)) (figure w) (theme w)).
Proof.
  intros [Hdir | [Hnone Hd]].
  - rewrite bool_decide_eq_true_2 by (rewrite Hdir; eauto). cbn [negb].
    unfold ret. rewrite (insert_id _ _ _ Hdir). by destruct w.
  - rewrite bool_decide_eq_false_2 by (rewrite Hnone; by intros [? ?]).
    cbn [negb]. unfold os.mkdir. rewrite Hnone.
    unfold results_of at 1. by rewrite parent_child, Hd.
Qed.

(** Opening and parsing one input: it goes on with the dataset found at
    the location the name has from the working directory of that moment,
    and raises when there is none. *)
Lemma load_one {B} (name : string) (k : dataset -> M B) (w : world) :
  (exists dx, fs w !! os.resolve (cwd w) name = Some (File (JsonText dx)) /\
              (read_file <- open name ;; data <- lift (json.load read_file) ;; k data) w
              = k dx w) \/
  ((forall dx, fs w !! os.resolve (cwd w) name <> Some (File (JsonText dx))) /\
   exists e, (read_file <- open name ;; data <- lift (json.load read_file) ;; k data) w
             = (Raise e, w)).
Proof.
  unfold bind at 1 3. unfold open.
  destruct (fs w !! os.resolve (cwd w) name) as [[|[dx|f|]]|] eqn:E.
  - right. split; [done | eauto].
  - left. exists dx. split; [done|]. by rewrite lift_bind.
  - right. split; [done|]. rewrite lift_bind. eauto.
  - right. split; [done|]. rewrite lift_bind. eauto.
  - right. split; [done | eauto].
Qed.

Lemma lookup_ensured (m : gmap location node) (r p : location) (c : content) :
  (m !! r = Some Dir \/ m !! r = None) ->
  (<[r := Dir]> m !! p = Some (File c) <-> m !! p = Some (File c)).
Proof.
  intros Hr. rewrite lookup_insert. case_decide as E; [|done].
  subst p. destruct Hr as [-> | ->]; split; congruence.
Qed.

(** Under a [results] that is in place or makeable, either both inputs
    load or the run raises right after [results] has been seen to, still
    in its start directory. *)
Lemma main_loaded_or_raised (argv : list string) (w : world) :
  fs w !! results_of (cwd w) = Some Dir \/
  (fs w !! results_of (cwd w) = None /\ fs w !! cwd w = Some Dir) ->
  (exists dm dc, ready (cwd w) (fs w) argv dm dc) \/
  (exists e,
    main plots renders argv w =
    (Raise e, mkworld (cwd w) (<[results_of (cwd w) := Dir]> (fs w))
                      (figure w) (theme w))).
Proof.
  intros Hres.
  assert (Hr : fs w !! results_of (cwd w) = Some Dir \/
               fs w !! results_of (cwd w) = None)
    by (destruct Hres as [?|[? ?]]; auto).
  unfold main. unfold bind at 1. unfold os.getcwd at 1. rewrite join_results.
  unfold bind at 1. unfold os.path.exists_ at 1.
  unfold bind at 1. rewrite (ensured_results w Hres).
  set (w1 := mkworld _ _ _ _).
  rewrite lift_bind. unfold sys_argv at 1.
  destruct (argv !! 1) as [a1|] eqn:E1; [|eauto].
  match goal with |- context [bind (open a1) ?k] =>
    destruct (load_one a1
      (fun dm => name <- lift (sys_argv argv 2) ;; read_file <- open name ;;
                 data_current <- lift (json.load read_file) ;;
                 os.chdir (results_of (cwd w)) ;;;
                 set_theme "ticks" "pastel" ;;;
                 for_each (keys dm) (chart plots renders dm data_current)) w1)
      as [(dm & Hdm & ->) | (_ & e & ->)]
  end; [|eauto].
  rewrite lift_bind. unfold sys_argv at 1.
  destruct (argv !! 2) as [a2|] eqn:E2; [|eauto].
  destruct (load_one a2
      (fun dc => os.chdir (results_of (cwd w)) ;;;
                 set_theme "ticks" "pastel" ;;;
                 for_each (keys dm) (chart plots renders dm dc)) w1)
      as [(dc & Hdc & ->) | (_ & e & ->)]; [|eauto].
  left. exists dm, dc. split; [done|].
  exists a1, a2. subst w1. cbn [cwd fs] in Hdm, Hdc.
  apply lookup_ensured in Hdm; [|done]. apply lookup_ensured in Hdc; [|done].
  done.
Qed.

Lemma main_not_loaded (argv : list string) (w : world) :
  fs w !! results_of (cwd w) = Some Dir \/
  (fs w !! results_of (cwd w) = None /\ fs w !! cwd w = Some Dir) ->
  ~ (exists dm dc, ready (cwd w) (fs w) argv dm dc) ->
  exists e,
    main plots renders argv w =
    (Raise e, mkworld (cwd w) (<[results_of (cwd w) := Dir]> (fs w))
                      (figure w) (theme w)).
Proof.
  intros Hres Hnot. by destruct (main_loaded_or_raised argv w Hres).
Qed.

(** A run that completes had [results] in place or makeable and both
    inputs readable from its start directory. *)
Lemma main_ok_ready (argv : list string) (w w1 : world) :
  main plots renders argv w = (Ok tt, w1) ->
  exists dm dc, ready (cwd w) (fs w) argv dm dc.
Proof.
  intros Hrun.
  destruct (fs w !! results_of (cwd w)) as [[|c]|] eqn:Eres.
  - destruct (main_loaded_or_raised argv w) as [H | [e He]];
      [by left | done | congruence].
  - exfalso. revert Hrun.
    unfold main. unfold bind at 1. unfold os.getcwd at 1. rewrite join_results.
    unfold bind at 1. unfold os.path.exists_ at 1.
    rewrite bool_decide_eq_true_2 by (rewrite Eres; eauto). cbn [negb].
    unfold bind at 1. unfold ret at 1.
    rewrite lift_bind. destruct (sys_argv argv 1) as [a1|]; [|done].
    match goal with |- context [bind (open a1) ?k] =>
      destruct (load_one a1
        (fun dm => name <- lift (sys_argv argv 2) ;; read_file <- open name ;;
                   data_current <- lift (json.load read_file) ;;
                   os.chdir (results_of (cwd w)) ;;;
                   set_theme "ticks" "pastel" ;;;
                   for_each (keys dm) (chart plots renders dm data_current)) w)
        as [(dm & Hdm & ->) | (_ & e & ->)]
    end; [|done].
    rewrite lift_bind. destruct (sys_argv argv 2) as [a2|]; [|done].
    destruct (load_one a2
        (fun dc => os.chdir (results_of (cwd w)) ;;;
                   set_theme "ticks" "pastel" ;;;
                   for_each (keys dm) (chart plots renders dm dc)) w)
        as [(dc & Hdc & ->) | (_ & e & ->)]; [|done].
    unfold bind at 1. unfold os.chdir at 1. by rewrite Eres.
  - destruct (fs w !! cwd w) as [[|c]|] eqn:Ed.
    + destruct (main_loaded_or_raised argv w) as [H | [e He]];
        [by right | done | congruence].
    + exfalso. revert Hrun.
      unfold main. unfold bind at 1. unfold os.getcwd at 1. rewrite join_results.
      unfold bind at 1. unfold os.path.exists_ at 1.
      rewrite bool_decide_eq_false_2 by (rewrite Eres; by intros [? ?]).
      cbn [negb]. unfold bind at 1. unfold os.mkdir at 1.
      rewrite Eres. unfold results_of at 1. by rewrite parent_child, Ed.
    + exfalso. revert Hrun.
      unfold main. unfold bind at 1. unfold os.getcwd at 1. rewrite join_results.
      unfold bind at 1. unfold os.path.exists_ at 1.
      rewrite bool_decide_eq_false_2 by (rewrite Eres; by intros [? ?]).
      cbn [negb]. unfold bind at 1. unfold os.mkdir at 1.
      rewrite Eres. unfold results_of at 1. by rewrite parent_child, Ed.
Qed.


(** C8.  The datasets a run works on are the ones found at the locations
    its two arguments have from the directory the process started in, as
    the files stood at the start; only after both are read does the
    process move to [results], where the loop runs.  A file that parses
    must be there: when the location an argument has from the start
    directory holds none, the run raises while still in that directory,
    whatever lies under [results]. *)
Theorem inputs_resolved_at_start (argv : list string) (d : location)
    (m : gmap location node) (a1 a2 : string) :
  argv !! 1 = Some a1 -> argv !! 2 = Some a2 ->
  m !! results_of d = Some Dir \/ (m !! results_of d = None /\ m !! d = Some Dir) ->
  (forall dm dc,
     m !! os.resolve d a1 = Some (File (JsonText dm)) ->
     m !! os.resolve d a2 = Some (File (JsonText dc)) ->
     main plots renders argv (start d m) =
       for_each (keys dm) (chart plots renders dm dc) (prepared (start d m))) /\
  cwd (prepared (start d m)) = results_of d /\
  ((forall dm, m !! os.resolve d a1 <> Some (File (JsonText dm))) \/
   (forall dc, m !! os.resolve d a2 <> Some (File (JsonText dc))) ->
   exists e w', main plots renders argv (start d m) = (Raise e, w') /\ cwd w' = d).
Proof.
  intros H1 H2 Hres. split; [|split; [reflexivity|]].
  - intros dm dc Hm Hc. apply main_loaded. split; [done|].
    by exists a1, a2.
  - intros Hbad.
    destruct (main_not_loaded argv (start d m) Hres) as [e He].
    + intros (dm & dc & _ & b1 & b2 & Hb1 & Hb2 & Hm & Hc).
      cbn [start cwd fs] in *.
      rewrite H1 in Hb1. injection Hb1 as <-.
      rewrite H2 in Hb2. injection Hb2 as <-.
      destruct Hbad as [Hbad | Hbad]; [by apply (Hbad dm) | by apply (Hbad dc)].
    + eauto.
Qed.

(** C9.  When the start directory has no [results] yet and an input is
    missing or does not parse, the run raises, and it leaves the file
    system changed: [results] has been made, and nothing else. *)
Theorem results_made_before_loading (argv : list string) (d : location)
    (m : gmap location node) :
  m !! d = Some Dir ->
  m !! results_of d = None ->
  ~ (exists dm dc, ready d m argv dm dc) ->
  exists e w',
    main plots renders argv (start d m) = (Raise e, w') /\
    fs w' = <[results_of d := Dir]> m /\
    fs w' !! results_of d = Some Dir /\
    fs w' <> m.
Proof.
  intros Hd Hnone Hnot.
  destruct (main_not_loaded argv (start d m)) as [e He]; [by right | done |].
  eexists _, _. split; [exact He|]. cbn [fs start cwd].
  split; [done|]. split; [apply lookup_insert_eq|].
  intros E. apply (f_equal (fun x => x !! results_of d)) in E.
  rewrite lookup_insert_eq, Hnone in E. discriminate.
Qed.

End Loading.

(** ** Running again *)

Lemma write_all_other (ws : list (location * node)) (m : gmap location node)
    (p : location) :
  p ∉ map fst ws -> write_all ws m !! p = m !! p.
Proof.
  revert m. induction ws as [|[q n] ws IH]; intros m H; [done|].
  cbn [map fst] in H. apply not_elem_of_cons in H as [Hne Hrest].
  unfold write_all in *. cbn [fold_left fst snd].
  rewrite IH by done. by rewrite lookup_insert_ne.
Qed.

Lemma write_all_agree (ws : list (location * node)) (m1 m2 : gmap location node) :
  (forall p, p ∉ map fst ws -> m1 !! p = m2 !! p) ->
  write_all ws m1 = write_all ws m2.
Proof.
  revert m1 m2. induction ws as [|[q n] ws IH]; intros m1 m2 H.
  - apply map_eq. intros p. apply H. cbn. apply not_elem_of_nil.
  - unfold write_all in *. cbn [fold_left fst snd]. apply IH.
    intros p Hp. rewrite !lookup_insert. case_decide; [done|].
    apply H. cbn [map fst]. apply not_elem_of_cons. split; [congruence | done].
Qed.

Lemma write_all_file (ws : list (location * node)) (m : gmap location node)
    (p : location) :
  Forall (fun x => exists c, snd x = File c) ws ->
  p ∈ map fst ws -> exists c, write_all ws m !! p = Some (File c).
Proof.
  revert m. induction ws as [|[q n] ws IH]; intros m Hfiles Hin.
  - by apply elem_of_nil in Hin.
  - apply Forall_cons in Hfiles as [[c Hc] Hfiles]. cbn [snd] in Hc. subst n.
    unfold write_all in *. cbn [fold_left fst snd].
    destruct (decide (p ∈ map fst ws)) as [Hp | Hp].
    + by apply IH.
    + cbn [map fst] in Hin. apply elem_of_cons in Hin as [-> | Hin]; [|done].
      exists c. fold (write_all ws (<[q := File c]> m)).
      rewrite write_all_other by done. apply lookup_insert_eq.
Qed.

Lemma is_dir_insert_file (m : gmap location node) (p q : location) (c : content) :
  is_dir (<[p := File c]> m) q = if decide (p = q) then false else is_dir m q.
Proof. unfold is_dir. rewrite lookup_insert. by case_decide. Qed.

Lemma is_dir_true (m : gmap location node) (p : location) :
  is_dir m p = true <-> m !! p = Some Dir.
Proof. unfold is_dir. destruct (m !! p) as [[|c]|]; split; congruence. Qed.

Section Rerun.

Variable plots : pandas.frame -> bool.
Variable renders : Figure -> bool.

(** Whether [savefig] goes through depends on the figure and on which
    locations are directories, not on the files that are there. *)
Lemma savefig_ok (name : string) (w : world) :
  renders (figure w) = true ->
  is_dir (fs w) (os.resolve (cwd w) name) = false ->
  is_dir (fs w) (os.parent (os.resolve (cwd w) name)) = true ->
  savefig renders name w =
    (Ok tt, mkworld (cwd w)
              (<[os.resolve (cwd w) name := File (Png (figure w))]> (fs w))
              (figure w) (theme w)).
Proof.
  intros Hr Hfile Hdir. unfold savefig. rewrite Hr. cbn [negb].
  apply is_dir_true in Hdir. rewrite Hdir.
  unfold is_dir in Hfile.
  by destruct (fs w !! os.resolve (cwd w) name) as [[|c]|].
Qed.

Lemma savefig_ok_inv (name : string) (w w1 : world) :
  savefig renders name w = (Ok tt, w1) ->
  renders (figure w) = true /\
  is_dir (fs w) (os.resolve (cwd w) name) = false /\
  is_dir (fs w) (os.parent (os.resolve (cwd w) name)) = true.
Proof.
  unfold savefig, is_dir. destruct (renders (figure w)); cbn [negb]; [|done].
  destruct (fs w !! os.resolve (cwd w) name) as [[|c]|];
    destruct (fs w !! os.parent (os.resolve (cwd w) name)) as [[|c']|];
    done.
Qed.

(** A category charted in one world is charted in any world that has the
    same working directory, figure and directories, and the same file is
    written. *)
Lemma chart_replay (dm dc : dataset) (pallet : string) (w w1 wa : world) :
  chart plots renders dm dc pallet w = (Ok tt, w1) ->
  cwd wa = cwd w -> figure wa = figure w -> theme wa = theme w ->
  (forall p, is_dir (fs wa) p = is_dir (fs w) p) ->
  exists f,
    w1 = mkworld (cwd w)
           (<[os.resolve (cwd w) (pallet ++ ".png") := File (Png f)]> (fs w))
           (mkFigure [] (size_inches f)) (theme w) /\
    chart plots renders dm dc pallet wa =
      (Ok tt, mkworld (cwd w)
                (<[os.resolve (cwd w) (pallet ++ ".png") := File (Png f)]> (fs wa))
                (mkFigure [] (size_inches f)) (theme w)) /\
    is_dir (fs w) (os.resolve (cwd w) (pallet ++ ".png")) = false.
Proof.
  intros Hrun Hcwd Hfig Htheme Hdirs.
  rewrite chart_combined in Hrun. rewrite chart_combined.
  destruct (combined dm dc pallet) as [t|]; [|done].
  unfold bind at 1 in Hrun. unfold boxplot at 1 in Hrun.
  unfold bind at 1. unfold boxplot at 1.
  destruct (plots t); [|done].
  rewrite lift_bind in Hrun. rewrite lift_bind.
  destruct (getitem dm pallet) as [tests|]; [|done].
  unfold bind at 1 in Hrun. unfold set_size_inches at 1 in Hrun.
  unfold bind at 1. unfold set_size_inches at 1.
  cbn [cwd fs figure theme axes size_inches] in *.
  unfold bind at 1 in Hrun. unfold bind at 1.
  match type of Hrun with
  | context [savefig renders ?n ?w0] =>
      destruct (savefig renders n w0) as [[[]|e] w2] eqn:Es; [|done];
      destruct (savefig_ok_inv _ _ _ Es) as (Hr & Hfile & Hdir);
      rewrite (savefig_ok n w0 Hr Hfile Hdir) in Es
  end.
  injection Es as <-. cbn [cwd fs figure] in *.
  unfold clf in Hrun. cbn [cwd fs figure theme axes size_inches] in Hrun.
  injection Hrun as <-.
  exists (mkFigure (axes (figure w) ++ [t])
                   (figure_width, (item_height * len tests)%Q)).
  split; [reflexivity|]. split; [|done].
  rewrite savefig_ok; cbn [cwd fs figure theme axes size_inches].
  - unfold clf. cbn [cwd fs figure theme axes size_inches].
    by rewrite Hcwd, Hfig, Htheme.
  - by rewrite Hfig.
  - by rewrite Hcwd, Hdirs.
  - by rewrite Hcwd, Hdirs.
Qed.

Lemma loop_replay (dm dc : dataset) (l : list string) (w w1 : world) :
  for_each l (chart plots renders dm dc) w = (Ok tt, w1) ->
  exists ws,
    Forall (fun x => exists c, snd x = File c) ws /\
    map fst ws = map (fun pallet => os.resolve (cwd w) (pallet ++ ".png")) l /\
    fs w1 = write_all ws (fs w) /\
    (forall p, is_dir (fs w1) p = is_dir (fs w) p) /\
    forall wa,
      cwd wa = cwd w -> figure wa = figure w -> theme wa = theme w ->
      (forall p, is_dir (fs wa) p = is_dir (fs w) p) ->
      exists wa1,
        for_each l (chart plots renders dm dc) wa = (Ok tt, wa1) /\
        fs wa1 = write_all ws (fs wa).
Proof.
  revert w. induction l as [|a l IH]; intros w Hrun.
  - injection Hrun as <-. exists []. repeat split; try done.
    intros wa _ _ _ _. by exists wa.
  - cbn [for_each] in Hrun. unfold bind in Hrun.
    destruct (chart plots renders dm dc a w) as [[[]|e] w'] eqn:Ea; [|done].
    destruct (IH w' Hrun) as (ws & Hfiles & Hfst & Hfs & Hdirs & Hsim).
    destruct (chart_replay dm dc a w w' w Ea) as (f & Hw' & _ & Hnodir);
      try done.
    assert (Hcwd' : cwd w' = cwd w) by (by rewrite Hw').
    assert (Hdir' : forall p, is_dir (fs w') p = is_dir (fs w) p).
    { intros p. rewrite Hw'. cbn [fs]. rewrite is_dir_insert_file.
      case_decide; [by subst p|done]. }
    exists ((os.resolve (cwd w) (a ++ ".png"), File (Png f)) :: ws).
    split; [constructor; [by exists (Png f) | done]|].
    split; [cbn [map fst]; by rewrite Hfst, Hcwd'|].
    split; [rewrite Hfs, Hw'; reflexivity|].
    split; [intros p; by rewrite Hdirs, Hdir'|].
    intros wa Hc Hf Ht Hd.
    destruct (chart_replay dm dc a w w' wa Ea Hc Hf Ht Hd) as (f' & Hw'' & Hwa & _).
    rewrite Hw' in Hw''. injection Hw'' as Hf'.
    assert (f' = f) as ->.
    { apply (f_equal (fun x => x !! os.resolve (cwd w) (a ++ ".png"))) in Hf'.
      rewrite !lookup_insert_eq in Hf'. congruence. }
    destruct (Hsim (mkworld (cwd w)
                (<[os.resolve (cwd w) (a ++ ".png") := File (Png f)]> (fs wa))
                (mkFigure [] (size_inches f)) (theme w))) as (wa1 & Hloop & Hfs1).
    + by rewrite Hw'.
    + by rewrite Hw'.
    + by rewrite Hw'.
    + intros p. rewrite Hw'. cbn [fs]. rewrite !is_dir_insert_file.
      case_decide; [done | apply Hd].
    + exists wa1. cbn [for_each]. unfold bind. rewrite Hwa. by split.
Qed.

(** C7.  After a run that completed, start the script again in the same
    directory with the same arguments, on a file system that still has
    the same inputs and otherwise differs from what the first run left
    only in the contents of the files at the chart locations.  The
    [results] directory is there already, the second run does not raise,
    and it leaves exactly the files the first run left: whatever file sat
    at a chart location has been replaced. *)
Theorem second_run (argv : list string) (d : location)
    (m m' : gmap location node) (w1 : world) (a1 : string) (dm : dataset) :
  main plots renders argv (start d m) = (Ok tt, w1) ->
  argv !! 1 = Some a1 ->
  m !! os.resolve d a1 = Some (File (JsonText dm)) ->
  (forall i a, i = 1 \/ i = 2 -> argv !! i = Some a ->
               m' !! os.resolve d a = m !! os.resolve d a) ->
  (forall p, p ∉ map (output d) (keys dm) -> m' !! p = fs w1 !! p) ->
  (forall p, p ∈ map (output d) (keys dm) -> exists c, m' !! p = Some (File c)) ->
  fs w1 !! results_of d = Some Dir /\
  m' !! results_of d = Some Dir /\
  exists w2,
    main plots renders argv (start d m') = (Ok tt, w2) /\
    fs w2 = fs w1.
Proof.
  intros Hrun Ha1 Hdm Hinputs Hrest Hout.
  destruct (main_ok_ready plots renders argv _ _ Hrun)
    as (dm0 & dc & Hready).
  cbn [start cwd fs] in Hready.
  assert (dm0 = dm) as ->.
  { destruct Hready as (_ & b1 & b2 & Hb1 & _ & Hm & _).
    rewrite Ha1 in Hb1. injection Hb1 as <-. congruence. }
  rewrite (main_loaded plots renders argv (start d m) dm dc Hready) in Hrun.
  destruct (loop_replay dm dc _ _ _ Hrun)
    as (ws & Hfiles & Hfst & Hfs & Hdirs & Hsim).
  cbn [prepared start cwd fs figure theme] in Hfst, Hfs, Hdirs, Hsim.
  fold (output d) in Hfst.
  assert (Hres1 : fs w1 !! results_of d = Some Dir).
  { apply is_dir_true. rewrite Hdirs. apply is_dir_true, lookup_insert_eq. }
  assert (Hdirs' : forall p, is_dir m' p = is_dir (<[results_of d := Dir]> m) p).
  { intros p. rewrite <- Hdirs.
    destruct (decide (p ∈ map (output d) (keys dm))) as [Hp | Hp].
    - destruct (Hout p Hp) as [c Hc].
      destruct (write_all_file ws (<[results_of d := Dir]> m) p Hfiles) as [c' Hc'];
        [by rewrite Hfst|].
      unfold is_dir. by rewrite Hc, Hfs, Hc'.
    - unfold is_dir. by rewrite (Hrest p Hp). }
  assert (Hres' : m' !! results_of d = Some Dir).
  { apply is_dir_true. rewrite Hdirs'. apply is_dir_true, lookup_insert_eq. }
  split; [done|]. split; [done|].
  assert (Hready' : ready d m' argv dm dc).
  { destruct Hready as (_ & b1 & b2 & Hb1 & Hb2 & Hm & Hc).
    split; [by left|]. exists b1, b2. split; [done|]. split; [done|].
    rewrite (Hinputs 1 b1), (Hinputs 2 b2) by auto. done. }
  rewrite (main_loaded plots renders argv (start d m') dm dc Hready').
  destruct (Hsim (prepared (start d m'))) as (w2 & Hloop & Hfs2); try done.
  { intros p. cbn [prepared start cwd fs]. by rewrite (insert_id _ _ _ Hres'). }
  exists w2. split; [done|].
  rewrite Hfs2, Hfs. cbn [prepared start cwd fs].
  rewrite (insert_id _ _ _ Hres'). apply write_all_agree.
  intros p Hp. rewrite Hrest by (by rewrite <- Hfst).
  rewrite Hfs. by apply write_all_other.
Qed.

End Rerun.

(** * The properties on sample inputs *)

Lemma long_form_row_count_witness :
  tidy [("testA", [num 1; num 2; num 3]); ("testB", [num 4; None; num 6])] 3 /\
  exists t times,
    long_form [("testA", [num 1; num 2; num 3]); ("testB", [num 4; None; num 6])]
              "master" = Ok t /\
    pandas.column t "Time" = Some times /\
    pandas.nrows t = 6 /\ count_nan times = 1.
Proof.
  assert (H : tidy [("testA", [num 1; num 2; num 3]);
                    ("testB", [num 4; None; num 6])] 3)
    by (split; [repeat constructor | compute_done]).
  split; [exact H|].
  destruct (long_form_row_count _ 3 "master" H)
    as [(t & times & Ht & Hcol & _ & Hrows & _ & Hnan) _].
  exists t, times. repeat split; assumption.
Defined.

(** C1, as the specification words it, fails: tests with 3 and 2 samples
    are not padded to a table with one row per present sample; no table is
    built at all. *)
Lemma ragged_category_not_tabulated : ~ lossless_in_count ragged "master".
Proof. intros (t & H & _). vm_compute in H. discriminate. Qed.






Lemma scenario_chart_witness :
  exists w' f t,
    main accepts accepts command (start home (disk scenario_master scenario_current))
      = (Ok tt, w') /\
    fs w' = <[chart_file home "cat1" := File (Png f)]>
              (<[results_of home := Dir]> (disk scenario_master scenario_current)) /\
    axes f = [t] /\ length (pandas.rows t) = 12.
Proof.
  destruct (scenario_chart accepts accepts command home
              (disk scenario_master scenario_current))
    as (w' & f & t & fm & fc & Hrun & Hfs & Hax & Hlen & _).
  - on_disk.
  - compute_done.
  - all_accepted.
  - exists w', f, t. repeat split; assumption.
Defined.





Lemma second_run_witness :
  exists w1 w2,
    main accepts accepts command (start home (disk scenario_master scenario_current))
      = (Ok tt, w1) /\
    main accepts accepts command
         (start home (<[chart_file home "cat1" := File Other]> (fs w1)))
      = (Ok tt, w2) /\
    fs w2 = fs w1.
Proof.
  set (w1 := snd (main accepts accepts command
                    (start home (disk scenario_master scenario_current)))).
  assert (Hrun : main accepts accepts command
                   (start home (disk scenario_master scenario_current)) = (Ok tt, w1))
    by (vm_compute; reflexivity).
  destruct (second_run accepts accepts command home
              (disk scenario_master scenario_current)
              (<[chart_file home "cat1" := File Other]> (fs w1))
              w1 "master.json" scenario_master Hrun)
    as (_ & _ & w2 & Hagain & Hsame).
  - reflexivity.
  - reflexivity.
  - intros i a [-> | ->] H; cbn in H; injection H as <-; vm_compute; reflexivity.
  - intros p Hp. apply lookup_insert_ne. intros <-. apply Hp. by left.
  - intros p Hp. apply list_elem_of_singleton in Hp as ->.
    exists Other. apply lookup_insert_eq.
  - exists w1, w2. repeat split; assumption.
Defined.

Lemma inputs_resolved_at_start_witness :
  decoy_disk !! os.resolve (results_of home) "master.json"
    = Some (File (JsonText other_category)) /\
  main accepts accepts command (start home decoy_disk) =
    for_each (keys scenario_master)
      (chart accepts accepts scenario_master scenario_current)
      (prepared (start home decoy_disk)).
Proof.
  split; [reflexivity|].
  apply (inputs_resolved_at_start accepts accepts command home decoy_disk
           "master.json" "current.json").
  - reflexivity.
  - reflexivity.
  - left. reflexivity.
  - reflexivity.
  - reflexivity.
Defined.

Lemma results_made_before_loading_witness :
  half_disk !! results_of home = None /\
  exists e w',
    main accepts accepts command (start home half_disk) = (Raise e, w') /\
    fs w' !! results_of home = Some Dir.
Proof.
  split; [reflexivity|].
  destruct (results_made_before_loading accepts accepts command home half_disk)
    as (e & w' & Hrun & _ & Hdir & _).
  - reflexivity.
  - reflexivity.
  - intros (dm & dc & _ & a1 & a2 & _ & H2 & _ & Hc).
    cbn in H2. injection H2 as <-. vm_compute in Hc. discriminate.
  - by exists e, w'.
Defined.

(** * Further properties of the script *)

(** ** The rows of one branch *)

Lemma map_seq_nth {A B} (f : A -> B) (d : A) (pre v : list A) :
  map (fun i => f (nth i (pre ++ v) d)) (seq (length pre) (length v)) = map f v.
Proof.
  revert pre. induction v as [|x v IH]; intros pre; [done|].
  cbn [length seq map]. rewrite nth_middle. f_equal.
  replace (S (length pre)) with (length (pre ++ [x]))
    by (rewrite length_app; cbn; lia).
  rewrite <- (IH (pre ++ [x])). apply map_ext. intros i.
  by rewrite <- app_assoc.
Qed.

Lemma rows_block (k branch : string) (v : list sample) :
  pandas.rows
    (pandas.mkframe (seq 0 (length v))
       [ ("Test", repeat (pandas.Str k) (length v));
         ("Time", map pandas.cell_of_sample v);
         ("branch", repeat (pandas.Str branch) (length v)) ]) =
  map (record k branch) v.
Proof.
  rewrite rows_long.
  rewrite <- (map_seq_nth (record k branch) None [] v). cbn [length app].
  apply map_ext_in. intros i Hi. apply in_seq in Hi. unfold record.
  rewrite !nth_repeat_lt by lia.
  change pandas.NaN with (pandas.cell_of_sample None). by rewrite map_nth.
Qed.

Lemma records_cons (k branch : string) (v : list sample) (c : category) :
  records ((k, v) :: c) branch = map (record k branch) v ++ records c branch.
Proof. reflexivity. Qed.

Lemma rows_long_table (c : category) (n : nat) (branch : string) :
  samples_per_test c n ->
  pandas.rows (long_table c n branch) = records c branch.
Proof.
  induction 1 as [|[k v] c Hkv Hc IH].
  - unfold long_table. cbn [length flat_map]. rewrite Nat.mul_0_r. reflexivity.
  - cbn [snd] in Hkv. rewrite records_cons, <- IH.
    unfold long_table. cbn [flat_map length fst snd].
    replace (n * S (length c)) with (n + n * length c) by lia.
    rewrite repeat_app, rows_append.
    + subst n. by rewrite rows_block.
    + apply repeat_length.
    + by rewrite length_map.
    + apply repeat_length.
Qed.











(** ** What tabulating a category can raise *)

Lemma long_form_cases (c : category) (branch : string) :
  (exists n, tidy c n /\ long_form c branch = Ok (long_table c n branch)) \/
  (~ (exists n, tidy c n) /\ long_form c branch = Raise ValueError).
Proof.
  destruct (long_form c branch) as [t|e] eqn:E.
  - destruct (long_form_ok_tidy _ _ _ E) as [n Hn]. left. exists n.
    split; [done|]. rewrite <- E. by apply long_form_tidy.
  - right. split.
    + intros [n Hn]. rewrite (long_form_tidy _ _ _ Hn) in E. discriminate.
    + by rewrite (long_form_error _ _ _ E).
Qed.

Lemma getitem_cases {V} (d : dict V) (k : string) :
  ((k ∉ keys d) /\ getitem d k = Raise (KeyError k)) \/
  (exists v, getitem d k = Ok v).
Proof.
  unfold getitem. destruct (dict_find d k) as [v|] eqn:E.
  - right. by exists v.
  - left. split; [by apply dict_find_none | done].
Qed.

Lemma tabulates_not_untidy (d : dataset) (pallet : string) :
  tabulates d pallet -> untidy d pallet -> False.
Proof.
  intros (c & n & Hc & Hn) (c' & Hc' & Hno).
  rewrite Hc in Hc'. injection Hc' as <-. apply Hno. by exists n.
Qed.

Lemma getitem_in_keys {V} (d : dict V) (k : string) (v : V) :
  getitem d k = Ok v -> k ∉ keys d -> False.
Proof.
  unfold getitem. intros H Hk. apply dict_find_none in Hk. by rewrite Hk in H.
Qed.

Lemma combined_cases (dm dc : dataset) (pallet : string) :
  ((pallet ∉ keys dm) /\ combined dm dc pallet = Raise (KeyError pallet)) \/
  (untidy dm pallet /\ combined dm dc pallet = Raise ValueError) \/
  (tabulates dm pallet /\ (pallet ∉ keys dc) /\
   combined dm dc pallet = Raise (KeyError pallet)) \/
  (tabulates dm pallet /\ untidy dc pallet /\
   combined dm dc pallet = Raise ValueError) \/
  (tabulates dm pallet /\ tabulates dc pallet /\
   exists t, combined dm dc pallet = Ok t).
Proof.
  unfold combined.
  destruct (getitem_cases dm pallet) as [[Hk ->] | [m Hm]]; [by left|].
  rewrite Hm. right.
  destruct (long_form_cases m "master") as [(n1 & H1 & ->) | [Hno ->]];
    [|left; split; [by exists m | done]].
  right.
  assert (Htm : tabulates dm pallet) by (by exists m, n1).
  destruct (getitem_cases dc pallet) as [[Hk ->] | [c Hc]]; [by left|].
  rewrite Hc. right.
  destruct (long_form_cases c "current") as [(n2 & H2 & ->) | [Hno ->]].
  - right. split; [done|]. split; [by exists c, n2|].
    unfold long_table. rewrite concat_long. eauto.
  - left. split; [done|]. split; [by exists c | done].
Qed.

(** X3.  Tabulating a category raises nothing but [KeyError] for that
    category and [ValueError], and the master side is looked at first:
    a table is built exactly when both files have the category and pandas
    accepts both sides; [KeyError] means the master file lacks the category,
    or the master side is fine and the current file lacks it; [ValueError]
    means pandas refuses the master side, or the master side is fine and
    pandas refuses the current side. *)
Theorem combined_outcome (dm dc : dataset) (pallet : string) :
  ((exists t, combined dm dc pallet = Ok t) <->
   tabulates dm pallet /\ tabulates dc pallet) /\
  (combined dm dc pallet = Raise (KeyError pallet) <->
   (pallet ∉ keys dm) \/ (tabulates dm pallet /\ (pallet ∉ keys dc))) /\
  (combined dm dc pallet = Raise ValueError <->
   untidy dm pallet \/ (tabulates dm pallet /\ untidy dc pallet)) /\
  (forall e, combined dm dc pallet = Raise e ->
             e = KeyError pallet \/ e = ValueError).
Proof.
  assert (Hin : forall (d : dataset), tabulates d pallet -> pallet ∉ keys d -> False).
  { intros d (c & n & Hc & _). apply (getitem_in_keys _ _ _ Hc). }
  assert (Hun : forall (d : dataset), untidy d pallet -> pallet ∉ keys d -> False).
  { intros d (c & Hc & _). apply (getitem_in_keys _ _ _ Hc). }
  pose proof (tabulates_not_untidy dm pallet) as Hm.
  pose proof (tabulates_not_untidy dc pallet) as Hc.
  destruct (combined_cases dm dc pallet)
    as [[H1 ->] | [[H1 ->] | [(H1 & H2 & ->) | [(H1 & H2 & ->) | (H1 & H2 & t & ->)]]]].
  - split; [split; [by intros [t ?] | intros [? _]; exfalso; eauto]|].
    split; [split; [auto | done]|].
    split; [split; [done | intros [?|[? _]]; exfalso; eauto]|].
    intros e [= <-]. by left.
  - split; [split; [by intros [t ?] | intros [? _]; exfalso; eauto]|].
    split; [split; [done | intros [?|[? _]]; exfalso; eauto]|].
    split; [split; [auto | done]|].
    intros e [= <-]. by right.
  - split; [split; [by intros [t ?] | intros [_ ?]; exfalso; eauto]|].
    split; [split; [auto | done]|].
    split; [split; [done | intros [?|[_ ?]]; exfalso; eauto]|].
    intros e [= <-]. by left.
  - split; [split; [by intros [t ?] | intros [_ ?]; exfalso; eauto]|].
    split; [split; [done | intros [?|[_ ?]]; exfalso; eauto]|].
    split; [split; [auto | done]|].
    intros e [= <-]. by right.
  - split; [split; [done | eauto]|].
    split; [split; [done | intros [?|[_ ?]]; exfalso; eauto]|].
    split; [split; [done | intros [?|[_ ?]]; exfalso; eauto]|].
    done.
Qed.

(** X4.  A master category without tests still gives a table and a figure:
    the table holds the records of the current side alone, and the height
    asked for is 0. *)
Theorem empty_master_category (dm dc : dataset) (pallet : string)
    (c : category) (n : nat) :
  getitem dm pallet = Ok [] ->
  getitem dc pallet = Ok c ->
  tidy c n ->
  exists t h,
    picture dm dc pallet = Ok (mkFigure [t] (figure_width, h)) /\
    (h == 0)%Q /\
    pandas.rows t = records c "current".
Proof.
  intros Hm Hc Hn.
  assert (H0 : tidy [] 0) by (split; [constructor | apply not_elem_of_nil]).
  unfold picture, combined. rewrite Hm, Hc.
  rewrite (long_form_tidy _ _ _ H0), (long_form_tidy _ _ _ Hn).
  unfold long_table at 1 2. rewrite concat_long, !length_seq.
  cbn [flat_map repeat app length Nat.mul Nat.add].
  eexists _, _. split; [reflexivity|]. split; [reflexivity|].
  destruct Hn as [Hn _]. rewrite <- (rows_long_table c n "current" Hn).
  reflexivity.
Qed.

(** ** What the loop body touches *)

Section Effects.

Variable plots : pandas.frame -> bool.
Variable renders : Figure -> bool.

Lemma savefig_raise (name : string) (w w' : world) (e : exn) :
  savefig renders name w = (Raise e, w') -> w' = w.
Proof.
  unfold savefig. destruct (renders (figure w)); cbn [negb]; [|congruence].
  destruct (fs w !! os.resolve (cwd w) name) as [[|c]|];
    destruct (fs w !! os.parent (os.resolve (cwd w) name)) as [[|c']|];
    congruence.
Qed.

(** The two ways the loop body ends: raising, with the files as they were,
    or having saved the figure at the chart's location. *)
Lemma chart_cases (dm dc : dataset) (pallet : string) (w : world) :
  (exists e w',
     chart plots renders dm dc pallet w = (Raise e, w') /\
     cwd w' = cwd w /\ theme w' = theme w /\ fs w' = fs w) \/
  (exists t tests,
     combined dm dc pallet = Ok t /\ getitem dm pallet = Ok tests /\
     plots t = true /\
     renders (mkFigure (axes (figure w) ++ [t])
                (figure_width, (item_height * len tests)%Q)) = true /\
     is_dir (fs w) (os.resolve (cwd w) (pallet ++ ".png")) = false /\
     is_dir (fs w) (os.parent (os.resolve (cwd w) (pallet ++ ".png"))) = true /\
     chart plots renders dm dc pallet w =
       (Ok tt,
        mkworld (cwd w)
          (<[os.resolve (cwd w) (pallet ++ ".png") :=
               File (Png (mkFigure (axes (figure w) ++ [t])
                            (figure_width, (item_height * len tests)%Q)))]> (fs w))
          (mkFigure [] (figure_width, (item_height * len tests)%Q))
          (theme w))).
Proof.
  destruct (chart plots renders dm dc pallet w) as [r w'] eqn:E.
  rewrite chart_combined in E.
  destruct (combined dm dc pallet) as [t|e];
    [|injection E as <- <-; left; by exists e, w].
  unfold bind at 1 in E. unfold boxplot at 1 in E.
  destruct (plots t) eqn:Hplots;
    [|injection E as <- <-; left; by exists RenderError, w].
  rewrite lift_bind in E.
  destruct (getitem dm pallet) as [tests|e];
    [|injection E as <- <-; left; by eexists e, _].
  unfold bind at 1 in E. unfold set_size_inches at 1 in E.
  cbn [cwd fs figure theme axes size_inches] in E.
  unfold bind at 1 in E.
  match type of E with
  | context [savefig renders ?n ?w0] =>
      destruct (savefig renders n w0) as [[[]|e] w2] eqn:Es
  end.
  - destruct (savefig_ok_inv _ _ _ _ Es) as (Hr & Hfile & Hdir).
    rewrite (savefig_ok _ _ _ Hr Hfile Hdir) in Es. injection Es as <-.
    cbn [cwd fs figure theme axes size_inches] in *.
    unfold clf in E. cbn [cwd fs figure theme axes size_inches] in E.
    injection E as <- <-.
    right. exists t, tests. do 6 (split; [done|]). reflexivity.
  - apply savefig_raise in Es. subst w2. injection E as <- <-.
    left. by eexists e, _.
Qed.

Lemma chart_keeps (dm dc : dataset) (pallet : string) (w w' : world)
    (r : result unit) :
  chart plots renders dm dc pallet w = (r, w') ->
  cwd w' = cwd w /\ theme w' = theme w /\
  (forall p, p <> os.resolve (cwd w) (pallet ++ ".png") -> fs w' !! p = fs w !! p) /\
  (forall p, is_Some (fs w !! p) -> is_Some (fs w' !! p)) /\
  (forall p, is_dir (fs w') p = is_dir (fs w) p) /\
  (is_ok r = false -> fs w' = fs w).
Proof.
  intros H.
  destruct (chart_cases dm dc pallet w)
    as [(e & w1 & H1 & Hcwd & Htheme & Hfs)
       | (t & tests & _ & _ & _ & _ & Hfile & _ & H1)];
    rewrite H1 in H; injection H as <- <-.
  - rewrite Hfs. by repeat split.
  - cbn [cwd theme fs]. split; [done|]. split; [done|].
    split; [intros p Hp; by rewrite lookup_insert_ne|].
    split; [|split; [|done]].
    + intros p Hp. rewrite lookup_insert. by case_decide.
    + intros p. rewrite is_dir_insert_file. case_decide; [by subst p | done].
Qed.



Lemma loop_keeps (dm dc : dataset) (l : list string) (w w' : world)
    (r : result unit) :
  for_each l (chart plots renders dm dc) w = (r, w') ->
  cwd w' = cwd w /\ theme w' = theme w /\
  (forall p, (forall pallet, pallet ∈ l ->
                p <> os.resolve (cwd w) (pallet ++ ".png")) ->
             fs w' !! p = fs w !! p) /\
  (forall p, is_Some (fs w !! p) -> is_Some (fs w' !! p)) /\
  (forall p, is_dir (fs w') p = is_dir (fs w) p).
Proof.
  revert w. induction l as [|a l IH]; intros w H.
  - injection H as <- <-. by repeat split.
  - cbn [for_each] in H. unfold bind in H.
    destruct (chart plots renders dm dc a w) as [ra w1] eqn:Ea.
    destruct (chart_keeps dm dc a w w1 ra Ea) as (Hc & Ht & Hother & Hsome & Hdir & _).
    destruct ra as [[]|e].
    + destruct (IH w1 H) as (Hc' & Ht' & Hother' & Hsome' & Hdir').
      split; [congruence|]. split; [congruence|].
      split; [|split].
      * intros p Hp. rewrite Hother'.
        -- apply Hother. apply Hp. by left.
        -- intros pallet Hin. rewrite Hc. apply Hp. by right.
      * intros p Hp. by apply Hsome', Hsome.
      * intros p. by rewrite Hdir', Hdir.
    + injection H as <- <-. split; [done|]. split; [done|].
      split; [|split; [done|done]].
      intros p Hp. apply Hother. apply Hp. by left.
Qed.

End Effects.

(** ** The run as a whole *)

Section Runs.

Variable plots : pandas.frame -> bool.
Variable renders : Figure -> bool.

(** Once [results] has been seen to, the run is the loading of the two
    inputs, the move to [results] and the loop, from the world [ensured]. *)
Lemma main_after_results (argv : list string) (w : world) :
  fs w !! results_of (cwd w) = Some Dir \/
  (fs w !! results_of (cwd w) = None /\ fs w !! cwd w = Some Dir) ->
  main plots renders argv w =
  (name <- lift (sys_argv argv 1) ;;
   read_file <- open name ;;
   data_master <- lift (json.load read_file) ;;
   name <- lift (sys_argv argv 2) ;;
   read_file <- open name ;;
   data_current <- lift (json.load read_file) ;;
   os.chdir (results_of (cwd w)) ;;;
   set_theme "ticks" "pastel" ;;;
   for_each (keys data_master) (chart plots renders data_master data_current))
    (ensured w).
Proof.
  intros Hres.
  unfold main. unfold bind at 1. unfold os.getcwd at 1. rewrite join_results.
  unfold bind at 1. unfold os.path.exists_ at 1.
  unfold bind at 1. by rewrite (ensured_results w Hres).
Qed.

(** With a regular file where [results] should be, nothing is made and
    the run raises without having changed anything. *)
Lemma main_blocked (argv : list string) (w : world) (c : content) :
  fs w !! results_of (cwd w) = Some (File c) ->
  exists e, main plots renders argv w = (Raise e, w).
Proof.
  intros Eres.
  unfold main. unfold bind at 1. unfold os.getcwd at 1. rewrite join_results.
  unfold bind at 1. unfold os.path.exists_ at 1.
  rewrite bool_decide_eq_true_2 by (rewrite Eres; eauto). cbn [negb].
  unfold bind at 1. unfold ret at 1.
  rewrite lift_bind. destruct (sys_argv argv 1) as [a1|]; [|eauto].
  match goal with |- context [bind (open a1) ?k] =>
    destruct (load_one a1
      (fun dm => name <- lift (sys_argv argv 2) ;; read_file <- open name ;;
                 data_current <- lift (json.load read_file) ;;
                 os.chdir (results_of (cwd w)) ;;;
                 set_theme "ticks" "pastel" ;;;
                 for_each (keys dm) (chart plots renders dm data_current)) w)
      as [(dm & Hdm & ->) | (_ & e & ->)]
  end; [|eauto].
  rewrite lift_bind. destruct (sys_argv argv 2) as [a2|]; [|eauto].
  destruct (load_one a2
      (fun dc => os.chdir (results_of (cwd w)) ;;;
                 set_theme "ticks" "pastel" ;;;
                 for_each (keys dm) (chart plots renders dm dc)) w)
      as [(dc & Hdc & ->) | (_ & e & ->)]; [|eauto].
  unfold bind at 1. unfold os.chdir at 1. rewrite Eres. eauto.
Qed.

Lemma main_no_parent (argv : list string) (w : world) :
  fs w !! results_of (cwd w) = None ->
  fs w !! cwd w <> Some Dir ->
  exists e, main plots renders argv w = (Raise e, w).
Proof.
  intros Eres Ed.
  unfold main. unfold bind at 1. unfold os.getcwd at 1. rewrite join_results.
  unfold bind at 1. unfold os.path.exists_ at 1.
  rewrite bool_decide_eq_false_2 by (rewrite Eres; by intros [? ?]).
  cbn [negb]. unfold bind at 1. unfold os.mkdir at 1.
  rewrite Eres. unfold results_of at 1. rewrite parent_child.
  destruct (fs w !! cwd w) as [[|c]|]; [done | eauto | eauto].
Qed.

(** A run either stops before the loop, in its start directory and with
    at most [results] made, or has both inputs loaded. *)
Lemma main_cases (argv : list string) (w : world) :
  (exists e w',
     main plots renders argv w = (Raise e, w') /\ cwd w' = cwd w /\
     (fs w' = fs w \/
      (fs w !! results_of (cwd w) = None /\
       fs w' = <[results_of (cwd w) := Dir]> (fs w)))) \/
  (exists dm dc, ready (cwd w) (fs w) argv dm dc).
Proof.
  destruct (fs w !! results_of (cwd w)) as [[|c]|] eqn:Eres.
  - destruct (main_loaded_or_raised plots renders argv w) as [H | [e He]];
      [by left | by right |].
    left. eexists e, _. split; [exact He|]. cbn [cwd fs].
    split; [done|]. left. by apply insert_id.
  - destruct (main_blocked argv w c Eres) as [e He]. left. exists e, w. auto.
  - destruct (fs w !! cwd w) as [[|c]|] eqn:Ed.
    + destruct (main_loaded_or_raised plots renders argv w) as [H | [e He]];
        [by right | by right |].
      left. eexists e, _. split; [exact He|]. cbn [cwd fs]. auto.
    + destruct (main_no_parent argv w Eres) as [e He]; [by rewrite Ed|].
      left. exists e, w. auto.
    + destruct (main_no_parent argv w Eres) as [e He]; [by rewrite Ed|].
      left. exists e, w. auto.
Qed.

(** X7.  Whatever the arguments and the disk, a run ends in its start
    directory or in [results] (in [results] when it completes); it changes
    no location other than [results] itself and the locations
    [<name>.png] has from [results]; it removes nothing; and apart from
    making [results] it turns no file into a directory or directory into a
    file.  In particular it never changes its inputs unless one of them
    sits at such a chart location. *)
Theorem run_frame (argv : list string) (w : world) :
  let out := main plots renders argv w in
  (cwd (snd out) = cwd w \/ cwd (snd out) = results_of (cwd w)) /\
  (is_ok (fst out) = true -> cwd (snd out) = results_of (cwd w)) /\
  (forall p, p <> results_of (cwd w) ->
             (forall pallet, p <> os.resolve (results_of (cwd w)) (pallet ++ ".png")) ->
             fs (snd out) !! p = fs w !! p) /\
  (forall p, is_Some (fs w !! p) -> is_Some (fs (snd out) !! p)) /\
  (forall p, p <> results_of (cwd w) ->
             is_dir (fs (snd out)) p = is_dir (fs w) p).
Proof.
  intros out. subst out.
  destruct (main_cases argv w)
    as [(e & w' & -> & Hcwd & Hfs) | (dm & dc & Hready)].
  - cbn [fst snd is_ok]. split; [by left|]. split; [done|].
    destruct Hfs as [-> | [Hnone ->]].
    + by repeat split.
    + split; [intros p Hp _; by rewrite lookup_insert_ne|].
      split.
      * intros p Hp. rewrite lookup_insert. by case_decide.
      * intros p Hp. unfold is_dir. by rewrite lookup_insert_ne.
  - rewrite (main_loaded plots renders argv w dm dc Hready).
    destruct (for_each (keys dm) (chart plots renders dm dc) (prepared w))
      as [r w'] eqn:E.
    destruct (loop_keeps plots renders dm dc _ _ _ _ E)
      as (Hcwd & _ & Hother & Hsome & Hdir).
    cbn [prepared cwd fs] in Hcwd, Hother, Hsome, Hdir. cbn [fst snd].
    split; [by right|]. split; [done|].
    split; [|split].
    + intros p Hp Hnames. rewrite Hother by (intros pallet _; apply Hnames).
      by rewrite lookup_insert_ne.
    + intros p Hp. apply Hsome. rewrite lookup_insert. by case_decide.
    + intros p Hp. rewrite Hdir. unfold is_dir. by rewrite lookup_insert_ne.
Qed.


Lemma loop_ok_inv (dm dc : dataset) (l : list string) (w w' : world) :
  for_each l (chart plots renders dm dc) w = (Ok tt, w') ->
  axes (figure w) = [] ->
  axes (figure w') = [] /\
  forall pallet, pallet ∈ l ->
    exists f, picture dm dc pallet = Ok f /\
              Forall (fun t => plots t = true) (axes f) /\ renders f = true.
Proof.
  revert w. induction l as [|a l IH]; intros w H Hblank.
  - injection H as <-. split; [done|]. intros pallet Hin.
    by apply elem_of_nil in Hin.
  - cbn [for_each] in H. unfold bind in H.
    destruct (chart_cases plots renders dm dc a w)
      as [(e & w1 & H1 & _)
         | (t & tests & Ht & Htests & Hplots & Hrenders & _ & _ & H1)];
      rewrite H1 in H; [discriminate|].
    destruct (IH _ H) as [Hblank' Hall]; [done|].
    split; [done|]. intros pallet Hin.
    apply elem_of_cons in Hin as [-> | Hin]; [|by apply Hall].
    rewrite Hblank in Hrenders. cbn [app] in Hrenders.
    eexists. split; [unfold picture; by rewrite Ht, Htests|].
    cbn [axes]. split; [by constructor | done].
Qed.

(** X9.  A run that completes had both inputs readable from its start
    directory, and for every category of the master file both sides were
    tabulated and the plotting layer took the table and the figure.  It
    ends in [results] with a blank figure. *)
Theorem completed_run_charted_all (argv : list string) (d : location)
    (m : gmap location node) (w' : world) :
  main plots renders argv (start d m) = (Ok tt, w') ->
  exists dm dc,
    ready d m argv dm dc /\
    (forall pallet, pallet ∈ keys dm ->
       tabulates dm pallet /\ tabulates dc pallet /\
       exists f, picture dm dc pallet = Ok f /\
                 Forall (fun t => plots t = true) (axes f) /\ renders f = true) /\
    cwd w' = results_of d /\
    axes (figure w') = [].
Proof.
  intros Hrun.
  destruct (main_ok_ready plots renders argv _ _ Hrun) as (dm & dc & Hready).
  cbn [start cwd fs] in Hready. exists dm, dc. split; [done|].
  rewrite (main_loaded plots renders argv (start d m) dm dc Hready) in Hrun.
  destruct (loop_ok_inv dm dc _ _ _ Hrun) as [Hblank Hall]; [done|].
  destruct (loop_keeps plots renders dm dc _ _ _ _ Hrun) as (Hcwd & _).
  split; [|split; [exact Hcwd | exact Hblank]].
  intros pallet Hin. destruct (Hall pallet Hin) as (f & Hf & Hp & Hr).
  destruct (picture_inv _ _ _ _ Hf) as (t & tests & Ht & _ & _).
  destruct (combined_rows _ _ _ _ Ht)
    as (m0 & c0 & n1 & n2 & Hm0 & Hc0 & H1 & H2 & _).
  split; [by exists m0, n1|]. split; [by exists c0, n2|]. by exists f.
Qed.

(** X10.  With a regular file where [results] should be, the script makes
    no directory (it only asks whether the name exists), and the run always
    raises, having changed nothing; when both inputs load, the exception is
    [NotADirectoryError] from [os.chdir]. *)
Theorem results_is_a_file (argv : list string) (w : world) (c : content) :
  fs w !! results_of (cwd w) = Some (File c) ->
  (exists e, main plots renders argv w = (Raise e, w)) /\
  (forall a1 a2 dm dc,
     argv !! 1 = Some a1 -> argv !! 2 = Some a2 ->
     fs w !! os.resolve (cwd w) a1 = Some (File (JsonText dm)) ->
     fs w !! os.resolve (cwd w) a2 = Some (File (JsonText dc)) ->
     main plots renders argv w = (Raise NotADirectoryError, w)).
Proof.
  intros Eres. split; [by apply (main_blocked argv w c)|].
  intros a1 a2 dm dc H1 H2 Hf1 Hf2.
  unfold main. unfold bind at 1. unfold os.getcwd at 1. rewrite join_results.
  unfold bind at 1. unfold os.path.exists_ at 1.
  rewrite bool_decide_eq_true_2 by (rewrite Eres; eauto). cbn [negb].
  unfold bind at 1. unfold ret at 1.
  rewrite lift_bind, (sys_argv_some _ _ _ H1).
  unfold bind at 1. rewrite (open_file _ _ _ Hf1).
  rewrite lift_bind. cbn [json.load].
  rewrite lift_bind, (sys_argv_some _ _ _ H2).
  unfold bind at 1. rewrite (open_file _ _ _ Hf2).
  rewrite lift_bind. cbn [json.load].
  unfold bind at 1. unfold os.chdir at 1. by rewrite Eres.
Qed.


Lemma chart_current_ext (dm dc dc' : dataset) (pallet : string) (w : world) :
  getitem dc pallet = getitem dc' pallet ->
  chart plots renders dm dc pallet w = chart plots renders dm dc' pallet w.
Proof.
  intros H. rewrite !chart_combined. unfold combined. by rewrite H.
Qed.

(** X12.  The loop reads the current data only under the category names of
    the master file: two current datasets that agree on those categories
    give the same run of the loop, whatever other categories they hold. *)
Theorem current_read_at_master_keys (dm dc dc' : dataset) (w : world) :
  (forall pallet, pallet ∈ keys dm -> getitem dc pallet = getitem dc' pallet) ->
  for_each (keys dm) (chart plots renders dm dc) w =
  for_each (keys dm) (chart plots renders dm dc') w.
Proof.
  revert w. generalize (keys dm) as l.
  induction l as [|a l IH]; intros w H; [done|].
  cbn [for_each]. unfold bind.
  rewrite (chart_current_ext dm dc dc' a w) by (apply H; by left).
  destruct (chart plots renders dm dc' a w) as [[[]|e] w1]; [|done].
  apply IH. intros pallet Hin. apply H. by right.
Qed.

(** X13.  A missing argument raises [IndexError], after [results] has been
    seen to and nothing else: at once when the first is missing; when only
    the second is missing, the first file has been opened and parsed
    before. *)
Theorem missing_argument (argv : list string) (w : world) :
  fs w !! results_of (cwd w) = Some Dir \/
  (fs w !! results_of (cwd w) = None /\ fs w !! cwd w = Some Dir) ->
  (argv !! 1 = None ->
   main plots renders argv w = (Raise IndexError, ensured w)) /\
  (forall a1,
     argv !! 1 = Some a1 -> argv !! 2 = None ->
     (forall dm, fs w !! os.resolve (cwd w) a1 = Some (File (JsonText dm)) ->
        main plots renders argv w = (Raise IndexError, ensured w)) /\
     ((forall dm, fs w !! os.resolve (cwd w) a1 <> Some (File (JsonText dm))) ->
        exists e, e <> IndexError /\
                  main plots renders argv w = (Raise e, ensured w))).
Proof.
  intros Hres.
  assert (Hr : fs w !! results_of (cwd w) = Some Dir \/
               fs w !! results_of (cwd w) = None)
    by (destruct Hres as [?|[? ?]]; auto).
  rewrite (main_after_results argv w Hres). split.
  - intros H1. rewrite lift_bind. unfold sys_argv. by rewrite H1.
  - intros a1 H1 H2. rewrite lift_bind, (sys_argv_some _ _ _ H1). split.
    + intros dm Hdm.
      unfold bind at 1. unfold open at 1. cbn [ensured cwd fs].
      rewrite (proj2 (lookup_ensured _ _ _ _ Hr) Hdm).
      rewrite lift_bind. cbn [json.load]. rewrite lift_bind.
      unfold sys_argv. by rewrite H2.
    + intros Hno.
      unfold bind at 1. unfold open at 1. cbn [ensured cwd fs].
      destruct (<[results_of (cwd w):=Dir]> (fs w) !! os.resolve (cwd w) a1)
        as [[|[dm|f|]]|] eqn:E.
      * exists IsADirectoryError. split; [done | reflexivity].
      * exfalso. apply (Hno dm). by apply (lookup_ensured _ _ _ _ Hr).
      * exists JSONDecodeError. split; [done|]. by rewrite lift_bind.
      * exists JSONDecodeError. split; [done|]. by rewrite lift_bind.
      * exists FileNotFoundError. split; [done | reflexivity].
Qed.





End Runs.

(** ** The further properties on sample inputs *)



Lemma empty_master_category_witness :
  exists t h,
    picture [("cat1", [])] scenario_current "cat1" =
      Ok (mkFigure [t] (figure_width, h)) /\
    (h == 0)%Q /\
    length (pandas.rows t) = 6.
Proof.
  destruct (empty_master_category [("cat1", [])] scenario_current "cat1"
              [("testA", [num 2; num 3; num 4]); ("testB", [num 3; num 4; num 5])] 3)
    as (t & h & Hp & Hh & Hrows).
  - reflexivity.
  - reflexivity.
  - split; [repeat constructor | compute_done].
  - exists t, h. split; [exact Hp|]. split; [exact Hh|]. by rewrite Hrows.
Defined.



Lemma completed_run_charted_all_witness :
  exists w' dm dc,
    main accepts accepts command (start home (disk scenario_master scenario_current))
      = (Ok tt, w') /\
    ready home (disk scenario_master scenario_current) command dm dc /\
    cwd w' = results_of home.
Proof.
  set (w' := snd (main accepts accepts command
                    (start home (disk scenario_master scenario_current)))).
  assert (Hrun : main accepts accepts command
                   (start home (disk scenario_master scenario_current)) = (Ok tt, w'))
    by (vm_compute; reflexivity).
  destruct (completed_run_charted_all accepts accepts _ _ _ _ Hrun)
    as (dm & dc & Hready & _ & Hcwd & _).
  exists w', dm, dc. split; [exact Hrun|]. split; [exact Hready | exact Hcwd].
Defined.

Lemma results_is_a_file_witness :
  main accepts accepts command (start home blocked_disk) =
  (Raise NotADirectoryError, start home blocked_disk).
Proof.
  destruct (results_is_a_file accepts accepts command (start home blocked_disk) Other)
    as [_ H].
  - reflexivity.
  - apply (H "master.json" "current.json" scenario_master scenario_current);
      reflexivity.
Defined.


Lemma current_read_at_master_keys_witness :
  for_each (keys scenario_master)
    (chart accepts accepts scenario_master scenario_current)
    (prepared (start home (disk scenario_master scenario_current))) =
  for_each (keys scenario_master)
    (chart accepts accepts scenario_master (scenario_current ++ other_category))
    (prepared (start home (disk scenario_master scenario_current))).
Proof.
  apply (current_read_at_master_keys accepts accepts).
  intros pallet Hin. apply list_elem_of_singleton in Hin as ->. reflexivity.
Defined.

Lemma missing_argument_witness :
  main accepts accepts ["performance-boxplot.py"]
       (start home (disk scenario_master scenario_current)) =
  (Raise IndexError, ensured (start home (disk scenario_master scenario_current))).
Proof.
  apply (missing_argument accepts accepts ["performance-boxplot.py"]
           (start home (disk scenario_master scenario_current))).
  - right. split; reflexivity.
  - reflexivity.
Defined.


